(** * vfsutils: file and directory watching over a virtual file system

    A shallow embedding of [src/harness/vfsutils.ts] (namespace [vfsutils]):
    the stat helpers, [getAccessibleFileSystemEntries], and the watch
    emulation [watchFile] / [watchDirectory] / [fsWatch].

    Conventions of the embedding.
    - A JavaScript call that may throw returns a [result]; [try]/[catch] is a
      [match] on it.
    - The closure variables of [watchFile] ([prevStats], [exists]) and of
      [fsWatch] ([watcher]) are explicit state, threaded through the
      handlers.
    - The registrations handed out by [fs.watch] live in a table; every call
      made to it, and every call of the user's callback, is appended to a
      trace, so that the order of effects can be stated.
    - [vpath] and [vfs] are other files of the same directory: the path
      functions are an interface ([VPath]), the file system a record of the
      methods called here. *)

From Stdlib Require Import ZArith List Ascii String Bool Arith Lia.
Import ListNotations.
Local Open Scope string_scope.
Local Open Scope list_scope.

Set Implicit Arguments.

(** ** JavaScript completions *)

(** The completion of a call: it returns a value or throws. *)
Inductive result (A : Type) : Type :=
| Ok (a : A)
| Throws (msg : string).
Arguments Ok {A} a.
Arguments Throws {A} msg.

(** ** The collaborators: [vfs.Stats], [vfs.FileSystem], [vpath] *)

(** [vfs.Stats], reduced to what [vfsutils] reads: the two kind tests, the
    modification time in milliseconds and the size. *)
Record Stats : Type := {
  isFile : bool;
  isDirectory : bool;
  mtimeMs : Z;
  size : Z
}.

(** Modelled from the spec: [new vfs.Stats()], the constructor with no
    argument, whose class is declared in vfs.ts.  The spec gives the snapshot
    of an absent path as not a file, not a directory, modification time 0. *)
Definition Stats_new : Stats :=
  {| isFile := false; isDirectory := false; mtimeMs := 0; size := 0 |}.

(** The methods of [vfs.FileSystem] that [vfsutils] calls on a store at one
    instant.  [fs.watch] acts on the registration table below. *)
Record FileSystem : Type := {
  statSync : string -> result Stats;
  readdirSync : string -> result (list string);
  cwd : string;
  stringComparer : string -> string -> Z
}.

(** The functions of [vpath] that [vfsutils] calls. *)
Class VPath : Type := {
  dirname : string -> string;
  basename : string -> string;
  resolve : string -> string -> string;
  combine : string -> string -> string
}.

(** ** [ts.FileWatcherEventKind] *)

Inductive FileWatcherEventKind : Type := Created | Changed | Deleted.

Definition eventKind_eqb (a b : FileWatcherEventKind) : bool :=
  match a, b with
  | Created, Created | Changed, Changed | Deleted, Deleted => true
  | _, _ => false
  end.

(** ** The registration table and the trace *)

(** One registration made by [fs.watch(path, ...)]. *)
Record Registration : Type := {
  reg_path : string;
  reg_live : bool
}.

(** What the watchers do to the outside, in the order they do it. *)
Inductive Event : Type :=
| EvWatch (r : nat) (path : string)
    (* [fs.watch(path, ...)] returned registration [r] *)
| EvClose (r : nat)
    (* [close()] was called on registration [r] *)
| EvFile (path : string) (kind : FileWatcherEventKind)
    (* the [ts.FileWatcherCallback] was called *)
| EvDirectory (path : string).
    (* the [ts.DirectoryWatcherCallback] was called *)

Record Machine : Type := {
  regs : list Registration;
  trace : list Event
}.

Definition live_in (l : list Registration) (r : nat) : bool :=
  match nth_error l r with
  | Some g => reg_live g
  | None => false
  end.

Definition is_live (m : Machine) (r : nat) : bool := live_in (regs m) r.

Fixpoint close_at (r : nat) (l : list Registration) : list Registration :=
  match l, r with
  | [], _ => []
  | g :: l', O => {| reg_path := reg_path g; reg_live := false |} :: l'
  | g :: l', S r' => g :: close_at r' l'
  end.

(** Effects on the machine.  [None] is a model that ran out of fuel (only
    [fsWatch_fuel] can); it never stands for a JavaScript exception. *)
Definition Eff (A : Type) : Type := Machine -> option (Machine * A).

Definition ret {A : Type} (a : A) : Eff A := fun m => Some (m, a).

Definition bind {A B : Type} (c : Eff A) (k : A -> Eff B) : Eff B :=
  fun m => match c m with
           | Some (m', a) => k a m'
           | None => None
           end.

Definition out_of_fuel {A : Type} : Eff A := fun _ => None.

Declare Scope eff_scope.
Delimit Scope eff_scope with eff.
Notation "x <- c ;; k" := (bind c (fun x => k))
  (at level 100, c at next level, right associativity) : eff_scope.
Notation "' p <- c ;; k" := (bind c (fun x => let p := x in k))
  (at level 100, p pattern, c at next level, right associativity) : eff_scope.
Notation "c ;;; k" := (bind c (fun _ => k))
  (at level 100, right associativity) : eff_scope.
Local Open Scope eff_scope.

Definition emit (e : Event) : Eff unit :=
  fun m => Some ({| regs := regs m; trace := trace m ++ [e] |}, tt).

(** Modelled from the spec: [fs.watch(path, callback)] of vfs.ts.  It hands
    out a registration that no earlier call returned, live until closed. *)
Definition fs_watch (path : string) : Eff nat :=
  fun m =>
    let r := List.length (regs m) in
    Some ({| regs := regs m ++ [{| reg_path := path; reg_live := true |}];
             trace := trace m ++ [EvWatch r path] |}, r).

(** Modelled from the spec: [close()] of a registration of vfs.ts.  It
    releases the registration; the store sends it nothing afterwards. *)
Definition reg_close (r : nat) : Eff unit :=
  fun m =>
    Some ({| regs := close_at r (regs m);
             trace := trace m ++ [EvClose r] |}, tt).

(** ** The stat helpers *)

Section Vfsutils.

Context {vp : VPath}.

(** [getStats]: [try { return fs.statSync(path); } catch { return undefined; }] *)
Definition getStats (fs : FileSystem) (path : string) : result (option Stats) :=
  match statSync fs path with
  | Ok stats => Ok (Some stats)
  | Throws _ => Ok None
  end.

(** [fileExists]: [stats ? stats.isFile() : false] *)
Definition fileExists (fs : FileSystem) (path : string) : result bool :=
  match getStats fs path with
  | Ok stats => Ok (match stats with Some s => isFile s | None => false end)
  | Throws msg => Throws msg
  end.

(** [directoryExists]: [stats ? stats.isDirectory() : false] *)
Definition directoryExists (fs : FileSystem) (path : string) : result bool :=
  match getStats fs path with
  | Ok stats => Ok (match stats with Some s => isDirectory s | None => false end)
  | Throws msg => Throws msg
  end.

(** ** [getAccessibleFileSystemEntries] *)

Record Entries : Type := {
  files : list string;
  directories : list string
}.

(** The body of the loop, with its own [try]/[catch]: the two arrays before
    and after one entry, and how the body completes. *)
Definition entries_body (fs : FileSystem) (path file : string) (acc : Entries)
  : Entries * result unit :=
  match statSync fs (combine path file) with
  | Ok stats =>
      if isFile stats then
        ({| files := files acc ++ [file]; directories := directories acc |}, Ok tt)
      else if isDirectory stats then
        ({| files := files acc; directories := directories acc ++ [file] |}, Ok tt)
      else (acc, Ok tt)
  | Throws _ => (acc, Ok tt)
  end.

(** [for (const file of names) body]: it stops at the first throw, and what
    was pushed so far stays pushed. *)
Fixpoint for_of (body : string -> Entries -> Entries * result unit)
  (names : list string) (acc : Entries) : Entries * result unit :=
  match names with
  | [] => (acc, Ok tt)
  | file :: rest =>
      match body file acc with
      | (acc', Ok _) => for_of body rest acc'
      | (acc', Throws msg) => (acc', Throws msg)
      end
  end.

Definition getAccessibleFileSystemEntries (fs : FileSystem) (path : string)
  : result Entries :=
  let start := {| files := []; directories := [] |} in
  let attempt :=
    match readdirSync fs path with
    | Ok names => for_of (entries_body fs path) names start
    | Throws msg => (start, Throws msg)
    end in
  (* the outer [catch] ignores whatever was thrown *)
  Ok (fst attempt).

(** ** [watchFile]: the callback handed to [fsWatch] *)

(** The closure variables [prevStats] and [exists] of one [watchFile] call. *)
Record FileWatchState : Type := {
  prevStats : Stats;
  exists_ : bool
}.

(** [getStats(fs, path) || new vfs.Stats()]: a [Stats] object is truthy,
    [undefined] is not. *)
Definition statsOrNew (stats : option Stats) : Stats :=
  match stats with
  | Some s => s
  | None => Stats_new
  end.

(** The expression bound to [eventKind]. *)
Definition eventKind (currTime prevTime : Z) : FileWatcherEventKind :=
  if negb (currTime =? 0)%Z && (prevTime =? 0)%Z then Created
  else if (currTime =? 0)%Z && negb (prevTime =? 0)%Z then Deleted
  else Changed.

(** The arrow function [() => { ... }] of [watchFile].  It returns the closure
    variables after the call and how the call completes; the call of the
    user's [callback(path, eventKind)] is the event [EvFile]. *)
Definition watchFile_callback (fs : FileSystem) (path : string)
  (s : FileWatchState) : Eff (FileWatchState * result unit) :=
  match getStats fs path with
  | Throws msg => ret (s, Throws msg)
  | Ok stats =>
      let currStats := statsOrNew stats in
      let currTime := mtimeMs currStats in
      let prevTime := mtimeMs (prevStats s) in
      let kind := eventKind currTime prevTime in
      if eventKind_eqb kind Created && negb (exists_ s) then
        (* file was created (via open()) but hasn't yet been written *)
        ret ({| prevStats := prevStats s; exists_ := true |}, Ok tt)
      else if eventKind_eqb kind Changed && (currTime <=? prevTime)%Z then
        (* no change *)
        ret (s, Ok tt)
      else
        let s' := {| prevStats := currStats;
                     exists_ := negb (eventKind_eqb kind Deleted) |} in
        emit (EvFile path kind);;;
        ret (s', Ok tt)
  end.

(** ** [watchDirectory]: the callback handed to [fsWatch] *)

(** A string used as a condition: the empty string is falsy. *)
Definition truthy (s : string) : bool := negb (s =? "").

Definition watchDirectory_callback (path eventType filename : string)
  : Eff (result unit) :=
  if eventType =? "rename" then
    emit (EvDirectory (if truthy filename then resolve path filename else path));;;
    ret (Ok tt)
  else ret (Ok tt).

(** ** [fsWatch] *)

(** The closure variable [watcher] of one [fsWatch] call.  It holds either
    what [watchPresent] returned, the registration [fs.watch] made on the
    path itself, or what [watchMissing] returned, the object of the nested
    [fsWatch] call on the parent directory.  That object is nothing but its
    own variable [watcher], so it is given by it; the path and the existence
    test of the nested call are [dirname path] and [directoryExists]. *)
Inductive FsWatch : Type :=
| Present (dirWatcher : nat)
| Missing (parent : FsWatch).

(** The parameter [exists] of [fsWatch]. *)
Definition ExistsFn : Type := FileSystem -> string -> result bool.

(** What the store sends to a registration: a call of the listener given to
    [fs.watch], or the event ["error"]. *)
Inductive Notification : Type :=
| Notify (eventType filename : string)
| Error.

(** How a handler of [fsWatch] completes.  Each handler calls the parameter
    [callback] of its [fsWatch] call last, if at all: [TailCall] hands that
    call to whoever owns the callback. *)
Inductive Completion : Type :=
| Normal
| TailCall (eventType filename : string)
| Abrupt (msg : string).

(** [close()] of the object [fsWatch] returns is [watcher.close()]. *)
Fixpoint close (w : FsWatch) : Eff unit :=
  match w with
  | Present dirWatcher => reg_close dirWatcher
  | Missing parent => close parent
  end.

(** [watchPresent]: [fs.watch(path, callback)]; the listener of ["error"] is
    [onError] below. *)
Definition watchPresent (path : string) : Eff FsWatch :=
  dirWatcher <- fs_watch path;;
  ret (Present dirWatcher).

(** [watchMissing], with the nested call of [fsWatch] as [rec]. *)
Definition watchMissing
  (rec : FileSystem -> string -> ExistsFn -> Eff (result FsWatch))
  (fs : FileSystem) (path : string) : Eff (result FsWatch) :=
  let dirname := dirname path in
  if dirname =? path then ret (Throws "ENOENT: path not found.")
  else
    nested <- rec fs dirname directoryExists;;
    match nested with
    | Ok parent => ret (Ok (Missing parent))
    | Throws msg => ret (Throws msg)
    end.

(** The initialiser of [watcher]:
    [!exists(fs, path) ? watchMissing() : watchPresent()]. *)
Fixpoint fsWatch_fuel (fuel : nat) (fs : FileSystem) (path : string)
  (exists_fn : ExistsFn) : Eff (result FsWatch) :=
  match fuel with
  | O => out_of_fuel
  | S fuel' =>
      match exists_fn fs path with
      | Throws msg => ret (Throws msg)
      | Ok false => watchMissing (fsWatch_fuel fuel') fs path
      | Ok true => w <- watchPresent path;; ret (Ok w)
      end
  end.

(** Every nested call is on a path that [dirname] made shorter, when
    [dirname] behaves ([dirname_shrinks] below): this fuel is then enough. *)
Definition fsWatch (fs : FileSystem) (path : string) (exists_fn : ExistsFn)
  : Eff (result FsWatch) :=
  fsWatch_fuel (S (String.length path)) fs path exists_fn.

(** The listener of ["error"] that [watchPresent] installs. *)
Definition onError (fs : FileSystem) (path : string) (exists_fn : ExistsFn)
  (watcher : FsWatch) : Eff (FsWatch * Completion) :=
  match exists_fn fs path with
  | Throws msg => ret (watcher, Abrupt msg)
  | Ok true => ret (watcher, Normal)
  | Ok false =>
      close watcher;;;
      missing <- watchMissing fsWatch fs path;;
      match missing with
      | Throws msg => ret (watcher, Abrupt msg)
      | Ok watcher' => ret (watcher', TailCall "rename" "")
      end
  end.

(** The callback that [watchMissing] hands to the nested [fsWatch]. *)
Definition missingCallback (fs : FileSystem) (path : string)
  (exists_fn : ExistsFn) (watcher : FsWatch) (eventType filename : string)
  : Eff (FsWatch * Completion) :=
  if (eventType =? "rename")
     && (stringComparer fs (basename path) filename =? 0)%Z then
    match exists_fn fs path with
    | Throws msg => ret (watcher, Abrupt msg)
    | Ok false => ret (watcher, Normal)
    | Ok true =>
        close watcher;;;
        watcher' <- watchPresent path;;
        ret (watcher', TailCall "rename" "")
    end
  else ret (watcher, Normal).

(** The store sends [note] to registration [r]; [watcher] is the variable of
    the [fsWatch] call on [path].  The registration is the one of this call
    (state [Present]) or of a nested call (state [Missing]), whose callback
    is [missingCallback]. *)
Fixpoint deliver (fs : FileSystem) (path : string) (exists_fn : ExistsFn)
  (watcher : FsWatch) (r : nat) (note : Notification)
  : Eff (FsWatch * Completion) :=
  match watcher with
  | Present dirWatcher =>
      if (dirWatcher =? r)%nat then
        match note with
        | Notify eventType filename => ret (watcher, TailCall eventType filename)
        | Error => onError fs path exists_fn watcher
        end
      else ret (watcher, Normal)
  | Missing parent =>
      '(parent', completion) <-
        deliver fs (dirname path) directoryExists parent r note;;
      match completion with
      | TailCall eventType filename =>
          missingCallback fs path exists_fn (Missing parent') eventType filename
      | _ => ret (Missing parent', completion)
      end
  end.

(** Modelled from the spec: the store sends nothing to a registration that
    was closed. *)
Definition notify (fs : FileSystem) (path : string) (exists_fn : ExistsFn)
  (watcher : FsWatch) (r : nat) (note : Notification)
  : Eff (FsWatch * Completion) :=
  fun m =>
    if is_live m r then deliver fs path exists_fn watcher r note m
    else ret (watcher, Normal) m.

(** ** [watchFile] and [watchDirectory] *)

(** What the store sends, and the content of the store at that instant. *)
Record Input : Type := {
  in_fs : FileSystem;
  in_reg : nat;
  in_note : Notification
}.

(** One [watchFile] call: the resolved [path], its closure variables, and
    the [watcher] of its [fsWatch] call. *)
Record FileWatcher : Type := {
  fw_path : string;
  fw_state : FileWatchState;
  fw_watcher : FsWatch
}.

(** The two [let]s of [watchFile], on the resolved path. *)
Definition watchFile_init (fs : FileSystem) (path : string)
  : result FileWatchState :=
  match getStats fs path with
  | Throws msg => Throws msg
  | Ok stats =>
      match fileExists fs path with
      | Throws msg => Throws msg
      | Ok e => Ok {| prevStats := statsOrNew stats; exists_ := e |}
      end
  end.

Definition watchFile (fs : FileSystem) (path : string)
  : Eff (result FileWatcher) :=
  let path := resolve (cwd fs) path in
  match watchFile_init fs path with
  | Throws msg => ret (Throws msg)
  | Ok s =>
      made <- fsWatch fs path fileExists;;
      match made with
      | Throws msg => ret (Throws msg)
      | Ok w => ret (Ok {| fw_path := path; fw_state := s; fw_watcher := w |})
      end
  end.

(** A notification reaches a file watcher: [fsWatch] first, then the
    callback of [watchFile] if [fsWatch] calls it. *)
Definition watchFile_notify (i : Input) (fw : FileWatcher)
  : Eff (FileWatcher * result unit) :=
  '(w, completion) <-
    notify (in_fs i) (fw_path fw) fileExists (fw_watcher fw) (in_reg i) (in_note i);;
  match completion with
  | Normal =>
      ret ({| fw_path := fw_path fw; fw_state := fw_state fw; fw_watcher := w |},
           Ok tt)
  | Abrupt msg =>
      ret ({| fw_path := fw_path fw; fw_state := fw_state fw; fw_watcher := w |},
           Throws msg)
  | TailCall _ _ =>
      '(s, res) <- watchFile_callback (in_fs i) (fw_path fw) (fw_state fw);;
      ret ({| fw_path := fw_path fw; fw_state := s; fw_watcher := w |}, res)
  end.

Fixpoint watchFile_run (inputs : list Input) (fw : FileWatcher)
  : Eff (FileWatcher * list (result unit)) :=
  match inputs with
  | [] => ret (fw, [])
  | i :: rest =>
      '(fw', res) <- watchFile_notify i fw;;
      '(fw'', results) <- watchFile_run rest fw';;
      ret (fw'', res :: results)
  end.

(** One [watchDirectory] call. *)
Record DirectoryWatcher : Type := {
  dw_path : string;
  dw_watcher : FsWatch
}.

Definition watchDirectory (fs : FileSystem) (path : string)
  : Eff (result DirectoryWatcher) :=
  let path := resolve (cwd fs) path in
  made <- fsWatch fs path directoryExists;;
  match made with
  | Throws msg => ret (Throws msg)
  | Ok w => ret (Ok {| dw_path := path; dw_watcher := w |})
  end.

Definition watchDirectory_notify (i : Input) (dw : DirectoryWatcher)
  : Eff (DirectoryWatcher * result unit) :=
  '(w, completion) <-
    notify (in_fs i) (dw_path dw) directoryExists (dw_watcher dw)
           (in_reg i) (in_note i);;
  let dw' := {| dw_path := dw_path dw; dw_watcher := w |} in
  match completion with
  | Normal => ret (dw', Ok tt)
  | Abrupt msg => ret (dw', Throws msg)
  | TailCall eventType filename =>
      res <- watchDirectory_callback (dw_path dw) eventType filename;;
      ret (dw', res)
  end.

Fixpoint watchDirectory_run (inputs : list Input) (dw : DirectoryWatcher)
  : Eff (DirectoryWatcher * list (result unit)) :=
  match inputs with
  | [] => ret (dw, [])
  | i :: rest =>
      '(dw', res) <- watchDirectory_notify i dw;;
      '(dw'', results) <- watchDirectory_run rest dw';;
      ret (dw'', res :: results)
  end.

(** A run of the watcher of one [fsWatch] call, for claims about [fsWatch]
    whatever its callback. *)
Fixpoint fsWatch_run (path : string) (exists_fn : ExistsFn)
  (inputs : list Input) (w : FsWatch) : Eff (FsWatch * list Completion) :=
  match inputs with
  | [] => ret (w, [])
  | i :: rest =>
      '(w', c) <- notify (in_fs i) path exists_fn w (in_reg i) (in_note i);;
      '(w'', cs) <- fsWatch_run path exists_fn rest w';;
      ret (w'', c :: cs)
  end.

(** ** Vocabulary of the properties *)

(** The registration a watcher holds: the one at the end of the chain. *)
Fixpoint owned (w : FsWatch) : nat :=
  match w with
  | Present dirWatcher => dirWatcher
  | Missing parent => owned parent
  end.

(** [dirname] makes every path but the roots shorter. *)
Definition dirname_shrinks : Prop :=
  forall p, dirname p <> p -> String.length (dirname p) < String.length p.

(** Above [path], and at [path] for [exists_fn], every path that is its own
    parent passes the existence test. *)
Definition roots_exist (fs : FileSystem) (exists_fn : ExistsFn) (path : string)
  : Prop :=
  (dirname path = path -> exists_fn fs path = Ok true) /\
  forall k, let q := Nat.iter (S k) dirname path in
            dirname q = q -> directoryExists fs q = Ok true.

(** The ownership discipline, read off a trace: [cur] is the registration
    that is live, if any.  A [fs.watch] while one is live, or a [close] of
    anything but the live one, breaks it. *)
Fixpoint disciplined (cur : option nat) (t : list Event) : option (option nat) :=
  match t with
  | [] => Some cur
  | EvWatch r _ :: t' =>
      match cur with
      | None => disciplined (Some r) t'
      | Some _ => None
      end
  | EvClose r :: t' =>
      match cur with
      | Some c => if (c =? r)%nat then disciplined None t' else None
      | None => None
      end
  | _ :: t' => disciplined cur t'
  end.

(** The kinds the [ts.FileWatcherCallback] was called with, in order. *)
Fixpoint file_events (t : list Event) : list FileWatcherEventKind :=
  match t with
  | [] => []
  | EvFile _ kind :: t' => kind :: file_events t'
  | _ :: t' => file_events t'
  end.





(** What the callback of [watchFile] binds to [currStats]. *)
Definition currStats (fs : FileSystem) (path : string) : Stats :=
  match statSync fs path with
  | Ok s => s
  | Throws _ => Stats_new
  end.

(** The entries [getAccessibleFileSystemEntries] keeps as files, and as
    directories: the stat succeeds, and [isFile] is asked first. *)
Definition file_entry (fs : FileSystem) (path file : string) : bool :=
  match statSync fs (combine path file) with
  | Ok stats => isFile stats
  | Throws _ => false
  end.

Definition directory_entry (fs : FileSystem) (path file : string) : bool :=
  match statSync fs (combine path file) with
  | Ok stats => negb (isFile stats) && isDirectory stats
  | Throws _ => false
  end.

(** The machine after one more event. *)
Definition after (m : Machine) (t : list Event) : Machine :=
  {| regs := regs m; trace := trace m ++ t |}.

(** The classifier as the design notes state it: a candidate [Created] is
    dropped when the file is already believed to exist, the belief staying
    true, and handed to the callback when it is not. *)
Definition created_dropped_when_believed (fs : FileSystem) (path : string)
  (s : FileWatchState) (m : Machine) : Prop :=
  eventKind (mtimeMs (currStats fs path)) (mtimeMs (prevStats s)) = Created ->
  (exists_ s = true ->
     exists s', watchFile_callback fs path s m = Some (m, (s', Ok tt)) /\
                exists_ s' = true) /\
  (exists_ s = false ->
     exists s', watchFile_callback fs path s m
                = Some (after m [EvFile path Created], (s', Ok tt))).

(** The registration table after the store calls of a trace, when each
    [fs.watch] of the trace returned the next free registration. *)
Fixpoint replay (t : list Event) (l : list Registration)
  : option (list Registration) :=
  match t with
  | [] => Some l
  | EvWatch r q :: t' =>
      if (r =? List.length l)%nat
      then replay t' (l ++ [{| reg_path := q; reg_live := true |}])
      else None
  | EvClose r :: t' => replay t' (close_at r l)
  | _ :: t' => replay t' l
  end.

(** The registrations a trace opened and has not closed, [acc] being those
    open before it. *)
Fixpoint held (acc : list nat) (t : list Event) : list nat :=
  match t with
  | [] => acc
  | EvWatch r _ :: t' => held (r :: acc) t'
  | EvClose r :: t' => held (remove Nat.eq_dec r acc) t'
  | _ :: t' => held acc t'
  end.

Definition as_list (cur : option nat) : list nat :=
  match cur with
  | Some r => [r]
  | None => []
  end.

(** From [m] to [m'] the watcher made store calls only, the table followed
    them, and they kept the discipline, from [cur] live to [cur'] live. *)
Definition moves (cur : option nat) (m m' : Machine) (cur' : option nat) : Prop :=
  exists delta,
    trace m' = trace m ++ delta /\
    replay delta (regs m) = Some (regs m') /\
    disciplined cur delta = Some cur' /\
    file_events delta = [].

(** What a handler of the watcher [w], whose registration is live, may do:
    it ends holding the live registration of [w'], or it threw after closing
    its registration, the variable [watcher] left as it was. *)
Definition handled (m : Machine) (w : FsWatch) (m' : Machine) (w' : FsWatch)
  (c : Completion) : Prop :=
  exists cur',
    moves (Some (owned w)) m m' cur' /\
    (cur' = Some (owned w') \/
     (cur' = None /\ w' = w /\ exists msg, c = Abrupt msg)).

(** The registration the watcher holds is live, or it holds none. *)
Definition holds (m : Machine) (w : FsWatch) (cur : option nat) : Prop :=
  cur = if is_live m (owned w) then Some (owned w) else None.

Definition never_throws (exists_fn : ExistsFn) : Prop :=
  forall fs p, exists b, exists_fn fs p = Ok b.

(** The error handling as the design notes state it: once [watchFile] has
    returned a watcher, no notification makes it throw. *)
Definition no_error_after_construction (fs0 : FileSystem) (path : string)
  (inputs : list Input) (m0 : Machine) : Prop :=
  forall m1 fw,
    watchFile fs0 path m0 = Some (m1, Ok fw) ->
    exists m2 fw' results,
      watchFile_run inputs fw m1 = Some (m2, (fw', results)) /\
      Forall (fun res => res = Ok tt) results.



(** ** [getFileSize], [getDirectories] *)

(** [getFileSize]: [stats && stats.isFile() ? stats.size : 0] *)
Definition getFileSize (fs : FileSystem) (path : string) : result Z :=
  match getStats fs path with
  | Ok stats =>
      Ok (match stats with
          | Some s => if isFile s then size s else 0%Z
          | None => 0%Z
          end)
  | Throws msg => Throws msg
  end.

(** [for (const x of names) body], on any local state: it stops at the
    first throw, and what the body did so far stays done. *)
Fixpoint for_each {S : Type} (body : string -> S -> S * result unit)
  (names : list string) (acc : S) : S * result unit :=
  match names with
  | [] => (acc, Ok tt)
  | file :: rest =>
      match body file acc with
      | (acc', Ok _) => for_each body rest acc'
      | (acc', Throws msg) => (acc', Throws msg)
      end
  end.

(** The body of the loop of [getDirectories]; it has no [try] of its own, so
    a [statSync] that throws ends the loop. *)
Definition directories_body (fs : FileSystem) (path file : string)
  (acc : list string) : list string * result unit :=
  match statSync fs (combine path file) with
  | Ok stats =>
      if isDirectory stats then (acc ++ [file], Ok tt) else (acc, Ok tt)
  | Throws msg => (acc, Throws msg)
  end.

Definition getDirectories (fs : FileSystem) (path : string)
  : result (list string) :=
  let attempt :=
    match readdirSync fs path with
    | Ok names => for_each (directories_body fs path) names []
    | Throws msg => ([], Throws msg)
    end in
  (* the [catch] ignores whatever was thrown *)
  Ok (fst attempt).

(** ** Vocabulary of the further properties *)

(** How many nested [fsWatch] calls a watcher stands on. *)
Fixpoint depth (w : FsWatch) : nat :=
  match w with
  | Present _ => 0
  | Missing parent => S (depth parent)
  end.

(** The path of the [k]-th nested call, and its existence test. *)
Definition ancestor (path : string) (k : nat) : string :=
  Nat.iter k dirname path.

Definition level_exists (exists_fn : ExistsFn) (k : nat) : ExistsFn :=
  match k with
  | O => exists_fn
  | S _ => directoryExists
  end.

(** The registration the watcher holds was made on the path its state
    says: the watched path, or its ancestor [depth w] levels up. *)
Definition well_placed (m : Machine) (path : string) (w : FsWatch) : Prop :=
  option_map reg_path (nth_error (regs m) (owned w))
  = Some (ancestor path (depth w)).

(** The stat of an entry succeeds; it succeeds and says directory. *)
Definition statable (fs : FileSystem) (path file : string) : bool :=
  match statSync fs (combine path file) with
  | Ok _ => true
  | Throws _ => false
  end.

Definition directory_stat (fs : FileSystem) (path file : string) : bool :=
  match statSync fs (combine path file) with
  | Ok stats => isDirectory stats
  | Throws _ => false
  end.

Fixpoint take_while (keep : string -> bool) (names : list string) : list string :=
  match names with
  | [] => []
  | x :: rest => if keep x then x :: take_while keep rest else []
  end.

(** Every call of the file callback in the trace is about [path]. *)
Definition reports_only (path : string) (t : list Event) : Prop :=
  Forall (fun e => match e with
                   | EvFile q _ => q = path
                   | _ => True
                   end) t.

(** ** Vocabulary of exact reporting *)









(** The notifications [notes], each a type and a name, that the store sends
    to registration [r] while its content is [fs]. *)
Definition notifications (fs : FileSystem) (r : nat)
  (notes : list (string * string)) : list Input :=
  map (fun note => {| in_fs := fs; in_reg := r;
                      in_note := Notify (fst note) (snd note) |}) notes.

End Vfsutils.

(** ** [createResolver] *)

Module Harness.

(** The methods of [Harness.IO] (harness.ts) that [createResolver] calls. *)
Record IO : Type := {
  getAccessibleFileSystemEntries : string -> result Entries;
  directoryExists : string -> result bool;
  fileExists : string -> result bool;
  getFileSize : string -> result Z
}.

End Harness.

Module Resolver.

(** file mode flags used for computing Stats *)
Definition S_IFREG : Z := 0x8000.
Definition S_IFDIR : Z := 0x4000.

(** The permission bits, octal in the source: [0o777] and [0o666]. *)
Definition rwx_all : Z := 511.
Definition rw_all : Z := 438.

(** What [statSync] of the resolver returns: [{ mode, size }]. *)
Record Stat : Type := {
  mode : Z;
  size : Z
}.

(** [readdirSync] of the object [createResolver(io)] returns. *)
Definition readdirSync (io : Harness.IO) (path : string) : result (list string) :=
  match Harness.getAccessibleFileSystemEntries io path with
  | Ok e => Ok (directories e ++ files e)
  | Throws msg => Throws msg
  end.

(** [statSync] of the object [createResolver(io)] returns. *)
Definition statSync (io : Harness.IO) (path : string) : result Stat :=
  match Harness.directoryExists io path with
  | Throws msg => Throws msg
  | Ok true => Ok {| mode := Z.lor S_IFDIR rwx_all; size := 0 |}
  | Ok false =>
      match Harness.fileExists io path with
      | Throws msg => Throws msg
      | Ok true =>
          match Harness.getFileSize io path with
          | Throws msg => Throws msg
          | Ok n => Ok {| mode := Z.lor S_IFREG rw_all; size := n |}
          end
      | Ok false => Throws "ENOENT: path does not exist"
      end
  end.

End Resolver.

(** ** An instance for the examples: POSIX paths and stores given by a table

    None of the theorems depends on it; the examples and the
    counterexamples run on it. *)

Module Posix.

(** What stands before the last slash of [s], if [s] has a slash. *)
Fixpoint cut_last_slash (s : string) : option string :=
  match s with
  | EmptyString => None
  | String c rest =>
      match cut_last_slash rest with
      | Some d => Some (String c d)
      | None => if Ascii.eqb c "/"%char then Some EmptyString else None
      end
  end.

(** What stands after the last slash of [s], all of [s] if it has none. *)
Fixpoint after_last_slash (s : string) : string :=
  match s with
  | EmptyString => EmptyString
  | String c rest =>
      match cut_last_slash rest with
      | Some _ => after_last_slash rest
      | None => if Ascii.eqb c "/"%char then rest else s
      end
  end.

Definition dirname (p : string) : string :=
  match cut_last_slash p with
  | Some EmptyString => "/"
  | Some d => d
  | None => p
  end.

Definition combine (a b : string) : string :=
  if a =? "/" then a ++ b else a ++ "/" ++ b.

Definition resolve (a b : string) : string :=
  match b with
  | EmptyString => a
  | String c _ => if Ascii.eqb c "/"%char then b else combine a b
  end.

Definition vpath : VPath := Build_VPath dirname after_last_slash resolve combine.

Definition compareCaseSensitive (a b : string) : Z :=
  match String.compare a b with
  | Lt => (-1)%Z
  | Eq => 0%Z
  | Gt => 1%Z
  end.

Fixpoint lookup {A : Type} (p : string) (table : list (string * A)) : option A :=
  match table with
  | [] => None
  | (q, a) :: rest => if p =? q then Some a else lookup p rest
  end.

Definition file (mtime : Z) : Stats :=
  {| isFile := true; isDirectory := false; mtimeMs := mtime; size := 1 |}.

Definition directory (mtime : Z) (names : list string) : Stats * list string :=
  ({| isFile := false; isDirectory := true; mtimeMs := mtime; size := 0 |}, names).

(** A store given by its files and its directories. *)
Definition store (fls : list (string * Stats))
  (dirs : list (string * (Stats * list string))) : FileSystem :=
  {| statSync := fun p =>
       match lookup p fls, lookup p dirs with
       | Some s, _ => Ok s
       | None, Some (s, _) => Ok s
       | None, None => Throws "ENOENT"
       end;
     readdirSync := fun p =>
       match lookup p dirs with
       | Some (_, names) => Ok names
       | None => Throws "ENOENT"
       end;
     cwd := "/";
     stringComparer := compareCaseSensitive |}.

Definition boot : Machine := {| regs := []; trace := [] |}.

Definition input (fs : FileSystem) (r : nat) (note : Notification) : Input :=
  {| in_fs := fs; in_reg := r; in_note := note |}.

(** A root and a file [/f] that comes, changes and goes. *)
Definition root_only : FileSystem := store [] [("/", directory 1 [])].
Definition with_f (mtime : Z) : FileSystem :=
  store [("/f", file mtime)] [("/", directory 2 ["f"])].
Definition nothing : FileSystem := store [] [].

Definition absent_unbelieved : FileWatchState :=
  {| prevStats := Stats_new; exists_ := false |}.
Definition absent_believed : FileWatchState :=
  {| prevStats := Stats_new; exists_ := true |}.
Definition seen (mtime : Z) : FileWatchState :=
  {| prevStats := file mtime; exists_ := true |}.


(** The file is made (two notifications), written again later, written
    again with the same time, removed, and made again. *)
Definition life_of_f : list Input :=
  [input (with_f 5) 0 (Notify "rename" "f");
   input (with_f 5) 1 (Notify "change" "f");
   input (with_f 7) 1 (Notify "change" "f");
   input (with_f 7) 1 (Notify "change" "f");
   input root_only 1 Error;
   input (with_f 9) 2 (Notify "rename" "f");
   input (with_f 9) 3 (Notify "change" "f")].

(** The store loses everything, its root too, and says so. *)
Definition all_gone : list Input := [input nothing 0 Error].

(** The chain [/a/b/c.txt] is made from the top down. *)
Definition chain0 : FileSystem := store [] [("/", directory 1 [])].
Definition chain1 : FileSystem :=
  store [] [("/", directory 2 ["a"]); ("/a", directory 2 [])].
Definition chain2 : FileSystem :=
  store [] [("/", directory 2 ["a"]); ("/a", directory 3 ["b"]);
            ("/a/b", directory 3 [])].
Definition chain3 (mtime : Z) : FileSystem :=
  store [("/a/b/c.txt", file mtime)]
        [("/", directory 2 ["a"]); ("/a", directory 3 ["b"]);
         ("/a/b", directory 4 ["c.txt"])].

Definition chain_made : list Input :=
  [input chain1 0 (Notify "rename" "a");
   input chain2 1 (Notify "rename" "b");
   input (chain3 5) 2 (Notify "rename" "c.txt");
   input (chain3 5) 3 (Notify "change" "c.txt");
   input (chain3 8) 3 (Notify "change" "c.txt");
   input (chain3 8) 3 (Notify "change" "c.txt");
   input chain2 3 Error].

(** The machine once a watcher watches the root, and once it watches [/f];
    the watchers [watchFile] returns for [/f] and for [/a/b/c.txt] when only
    the root is there, and for [/f] when it is there. *)
Definition watching_root : Machine :=
  {| regs := [{| reg_path := "/"; reg_live := true |}];
     trace := [EvWatch 0 "/"] |}.
Definition watching_f : Machine :=
  {| regs := [{| reg_path := "/f"; reg_live := true |}];
     trace := [EvWatch 0 "/f"] |}.
Definition f_awaited : FileWatcher :=
  {| fw_path := "/f"; fw_state := absent_unbelieved;
     fw_watcher := Missing (Present 0) |}.
Definition f_watched : FileWatcher :=
  {| fw_path := "/f"; fw_state := seen 5; fw_watcher := Present 0 |}.

(** A directory [/d] with an entry, and an unreadable entry. *)
Definition listing : FileSystem :=
  store [("/d/e", file 3)]
        [("/", directory 1 ["d"]); ("/d", directory 2 ["e"; "ghost"; "sub"]);
         ("/d/sub", directory 2 [])].

(** [/d] is watched; an entry is renamed, an entry is written, and [/d] is
    removed. *)
Definition watching_d : Machine :=
  {| regs := [{| reg_path := "/d"; reg_live := true |}];
     trace := [EvWatch 0 "/d"] |}.
Definition d_watched : DirectoryWatcher :=
  {| dw_path := "/d"; dw_watcher := Present 0 |}.
Definition life_of_d : list Input :=
  [input listing 0 (Notify "rename" "e");
   input listing 0 (Notify "change" "e");
   input root_only 0 Error].

(** The parent [/a] and the file [/a/f] are there at once; a watcher of
    [/a/f] still waits under the root. *)
Definition chain_at_once : FileSystem :=
  store [("/a/f", file 5)]
        [("/", directory 2 ["a"]); ("/a", directory 3 ["f"])].
Definition waiting_two_deep : FileWatcher :=
  {| fw_path := "/a/f"; fw_state := absent_unbelieved;
     fw_watcher := Missing (Missing (Present 0)) |}.

(** An [io] that knows the directory [/d] and the file [/d/e], 3 long. *)
Definition io_d : Harness.IO :=
  Harness.Build_IO
    (fun _ => Ok {| files := ["e"]; directories := [] |})
    (fun p => Ok (p =? "/d"))
    (fun p => Ok (p =? "/d/e"))
    (fun _ => Ok 3%Z).


(** Notifications of both types, with and without a name. *)
Definition mixed_notes : list (string * string) :=
  [("change", "f"); ("rename", "f"); ("change", ""); ("rename", "g")].

End Posix.

(** * Properties *)

Section Properties.

Context {vp : VPath}.

(** ** The stat helpers never throw *)

Lemma getStats_value (fs : FileSystem) (path : string) :
  getStats fs path =
  Ok (match statSync fs path with Ok s => Some s | Throws _ => None end).
Proof. unfold getStats. destruct (statSync fs path); reflexivity. Qed.

Lemma statsOrNew_getStats (fs : FileSystem) (path : string) :
  statsOrNew (match statSync fs path with Ok s => Some s | Throws _ => None end)
  = currStats fs path.
Proof. unfold currStats. destruct (statSync fs path); reflexivity. Qed.

Lemma fileExists_total (fs : FileSystem) (path : string) :
  exists b, fileExists fs path = Ok b.
Proof. unfold fileExists. rewrite getStats_value. eauto. Qed.

Lemma directoryExists_total (fs : FileSystem) (path : string) :
  exists b, directoryExists fs path = Ok b.
Proof. unfold directoryExists. rewrite getStats_value. eauto. Qed.

(** C5. Taking a snapshot never throws, whatever the path: [getStats]
    returns, and so do the two [let]s of [watchFile] that take the first
    snapshot; when [statSync] throws, [getStats] returns [undefined] and the
    snapshot is the absent one: it does not exist, is not a directory, and its
    modification time is 0. *)
Theorem snapshot_never_throws (fs : FileSystem) (path : string) :
  (exists stats, getStats fs path = Ok stats) /\
  (exists s, watchFile_init fs path = Ok s) /\
  (forall msg, statSync fs path = Throws msg ->
     getStats fs path = Ok None /\
     watchFile_init fs path = Ok {| prevStats := Stats_new; exists_ := false |} /\
     fileExists fs path = Ok false /\
     directoryExists fs path = Ok false /\
     isDirectory Stats_new = false /\
     mtimeMs Stats_new = 0%Z).
Proof.
  split; [| split].
  - rewrite getStats_value. eauto.
  - unfold watchFile_init, fileExists. rewrite getStats_value. eauto.
  - intros msg Hstat.
    unfold watchFile_init, fileExists, directoryExists, getStats.
    rewrite Hstat. cbn. repeat split; reflexivity.
Qed.

(** ** [getAccessibleFileSystemEntries] *)

Lemma entries_body_spec (fs : FileSystem) (path file : string) (acc : Entries) :
  entries_body fs path file acc =
  ({| files := files acc ++ (if file_entry fs path file then [file] else []);
      directories :=
        directories acc ++ (if directory_entry fs path file then [file] else []) |},
   Ok tt).
Proof.
  unfold entries_body, file_entry, directory_entry.
  destruct (statSync fs (combine path file)) as [stats | msg].
  - destruct (isFile stats); cbn.
    + rewrite app_nil_r. reflexivity.
    + destruct (isDirectory stats); cbn; rewrite ?app_nil_r;
        destruct acc; reflexivity.
  - rewrite !app_nil_r. destruct acc; reflexivity.
Qed.

Lemma for_of_entries (fs : FileSystem) (path : string) (names : list string) :
  forall acc,
    for_of (entries_body fs path) names acc =
    ({| files := files acc ++ filter (file_entry fs path) names;
        directories := directories acc ++ filter (directory_entry fs path) names |},
     Ok tt).
Proof.
  induction names as [| file rest IH]; intros acc; cbn [for_of filter].
  - rewrite !app_nil_r. destruct acc; reflexivity.
  - rewrite entries_body_spec, IH. cbn [files directories].
    rewrite <- !app_assoc.
    destruct (file_entry fs path file), (directory_entry fs path file);
      reflexivity.
Qed.

(** C10. [getAccessibleFileSystemEntries] never throws.  When the path
    cannot be listed both lists are empty.  When it can, the files are the
    listed names whose stat succeeds and says file, the directories the
    listed names whose stat succeeds and says directory (and not file), in
    the order of the listing: a name whose stat throws is in neither. *)
Theorem getAccessibleFileSystemEntries_spec (fs : FileSystem) (path : string) :
  exists e,
    getAccessibleFileSystemEntries fs path = Ok e /\
    (forall msg, readdirSync fs path = Throws msg ->
       files e = [] /\ directories e = []) /\
    (forall names, readdirSync fs path = Ok names ->
       files e = filter (file_entry fs path) names /\
       directories e = filter (directory_entry fs path) names) /\
    (forall file, In file (files e) ->
       exists names stats,
         readdirSync fs path = Ok names /\ In file names /\
         statSync fs (combine path file) = Ok stats /\ isFile stats = true) /\
    (forall file, In file (directories e) ->
       exists names stats,
         readdirSync fs path = Ok names /\ In file names /\
         statSync fs (combine path file) = Ok stats /\ isDirectory stats = true).
Proof.
  unfold getAccessibleFileSystemEntries.
  destruct (readdirSync fs path) as [names | msg] eqn:Hdir.
  - rewrite for_of_entries. cbn [fst files directories app].
    eexists. split; [reflexivity |]. cbn [files directories].
    split; [discriminate |].
    split; [intros names' Heq; injection Heq as <-; split; reflexivity |].
    split; intros file Hin; apply filter_In in Hin as [Hin Hkind].
    + unfold file_entry in Hkind.
      destruct (statSync fs (combine path file)) as [stats |] eqn:Hstat;
        [| discriminate].
      exists names, stats. auto.
    + unfold directory_entry in Hkind.
      destruct (statSync fs (combine path file)) as [stats |] eqn:Hstat;
        [| discriminate].
      apply andb_true_iff in Hkind as [_ Hkind].
      exists names, stats. auto.
  - cbn [fst]. eexists. split; [reflexivity |]. cbn [files directories].
    split; [auto |].
    split; [discriminate |].
    split; intros file [].
Qed.

(** ** The callback of [watchFile] *)

Lemma watchFile_callback_body (fs : FileSystem) (path : string)
  (s : FileWatchState) (m : Machine) :
  watchFile_callback fs path s m =
  let curr := currStats fs path in
  let kind := eventKind (mtimeMs curr) (mtimeMs (prevStats s)) in
  if eventKind_eqb kind Created && negb (exists_ s) then
    Some (m, ({| prevStats := prevStats s; exists_ := true |}, Ok tt))
  else if eventKind_eqb kind Changed
          && (mtimeMs curr <=? mtimeMs (prevStats s))%Z then
    Some (m, (s, Ok tt))
  else
    Some (after m [EvFile path kind],
          ({| prevStats := curr; exists_ := negb (eventKind_eqb kind Deleted) |},
           Ok tt)).
Proof.
  unfold watchFile_callback. rewrite getStats_value, statsOrNew_getStats.
  cbv zeta.
  destruct (eventKind_eqb _ Created && negb (exists_ s)); [reflexivity |].
  destruct (eventKind_eqb _ Changed && _); reflexivity.
Qed.

Lemma eventKind_Created (c p : Z) :
  eventKind c p = Created <-> (c <> 0 /\ p = 0)%Z.
Proof.
  unfold eventKind.
  destruct (Z.eqb_spec c 0), (Z.eqb_spec p 0); cbn; split;
    intros H; try discriminate; try tauto; destruct H; contradiction.
Qed.

Lemma eventKind_Deleted (c p : Z) :
  eventKind c p = Deleted <-> (c = 0 /\ p <> 0)%Z.
Proof.
  unfold eventKind.
  destruct (Z.eqb_spec c 0), (Z.eqb_spec p 0); cbn; split;
    intros H; try discriminate; try tauto; destruct H; contradiction.
Qed.

Lemma eventKind_Changed (c p : Z) :
  eventKind c p = Changed <-> ((c <> 0 /\ p <> 0) \/ (c = 0 /\ p = 0))%Z.
Proof.
  unfold eventKind.
  destruct (Z.eqb_spec c 0), (Z.eqb_spec p 0); cbn; split;
    intros H; try discriminate; try tauto;
    destruct H as [[? ?] | [? ?]]; contradiction.
Qed.

(** C1, as the code has it.  On a candidate [Created] (the current
    modification time is not 0, the stored one is): if the file is not yet
    believed to exist the event is dropped, no callback is called, the belief
    becomes true and the stored snapshot stays; if the file is already
    believed to exist the callback is called with [Created] and the current
    snapshot is stored. *)
Theorem created_dropped_until_believed (fs : FileSystem) (path : string)
  (s : FileWatchState) (m : Machine) :
  (mtimeMs (currStats fs path) <> 0 /\ mtimeMs (prevStats s) = 0)%Z ->
  (exists_ s = false ->
     watchFile_callback fs path s m =
     Some (m, ({| prevStats := prevStats s; exists_ := true |}, Ok tt))) /\
  (exists_ s = true ->
     watchFile_callback fs path s m =
     Some (after m [EvFile path Created],
           ({| prevStats := currStats fs path; exists_ := true |}, Ok tt))).
Proof.
  intros Hcand. apply eventKind_Created in Hcand.
  rewrite watchFile_callback_body. cbv zeta. rewrite Hcand.
  split; intros ->; reflexivity.
Qed.

(** C3. On a candidate [Changed] (both modification times are nonzero, or
    both are 0): when the current time is not later than the stored one no
    callback is called and the closure variables stay as they are; when it is
    later the callback is called with [Changed] and the current snapshot is
    stored. *)
Theorem changed_needs_later_mtime (fs : FileSystem) (path : string)
  (s : FileWatchState) (m : Machine) :
  let c := mtimeMs (currStats fs path) in
  let p := mtimeMs (prevStats s) in
  ((c <> 0 /\ p <> 0) \/ (c = 0 /\ p = 0))%Z ->
  eventKind c p = Changed /\
  ((c <= p)%Z -> watchFile_callback fs path s m = Some (m, (s, Ok tt))) /\
  ((c > p)%Z ->
     watchFile_callback fs path s m =
     Some (after m [EvFile path Changed],
           ({| prevStats := currStats fs path; exists_ := true |}, Ok tt))).
Proof.
  intros c p Hcand. apply eventKind_Changed in Hcand. fold c p in Hcand.
  split; [exact Hcand |].
  rewrite watchFile_callback_body. cbv zeta. fold c p. rewrite Hcand.
  cbn [eventKind_eqb andb negb].
  split; intros Hcmp.
  - apply Z.leb_le in Hcmp. rewrite Hcmp. reflexivity.
  - assert (Hgt : (c <=? p)%Z = false) by (apply Z.leb_gt; lia).
    rewrite Hgt. reflexivity.
Qed.

(** ** The callback of [watchDirectory] *)

Lemma notify_Present (fs : FileSystem) (path : string) (exists_fn : ExistsFn)
  (r : nat) (eventType filename : string) (m : Machine) :
  is_live m r = true ->
  notify fs path exists_fn (Present r) r (Notify eventType filename) m =
  Some (m, (Present r, TailCall eventType filename)).
Proof.
  intros Hlive. unfold notify. rewrite Hlive. cbn [deliver].
  rewrite Nat.eqb_refl. reflexivity.
Qed.

(** C8. The callback [watchDirectory] hands to [fsWatch]: on ["rename"] with
    a name it calls the user's callback with the name resolved against the
    directory path; on ["rename"] with the empty name, with the directory path
    itself; on ["change"], as on every type but ["rename"], it calls nothing.
    And what the store sends to the live registration of a directory watcher
    that watches its directory goes to this callback unchanged. *)
Theorem watchDirectory_callback_spec (path : string) (m : Machine) :
  (forall filename, filename <> "" ->
     watchDirectory_callback path "rename" filename m =
     Some (after m [EvDirectory (resolve path filename)], Ok tt)) /\
  watchDirectory_callback path "rename" "" m =
    Some (after m [EvDirectory path], Ok tt) /\
  (forall eventType filename, eventType <> "rename" ->
     watchDirectory_callback path eventType filename m = Some (m, Ok tt)) /\
  (forall filename,
     watchDirectory_callback path "change" filename m = Some (m, Ok tt)) /\
  (forall fs r eventType filename,
     is_live m r = true ->
     watchDirectory_notify
       {| in_fs := fs; in_reg := r; in_note := Notify eventType filename |}
       {| dw_path := path; dw_watcher := Present r |} m =
     match watchDirectory_callback path eventType filename m with
     | Some (m', res) =>
         Some (m', ({| dw_path := path; dw_watcher := Present r |}, res))
     | None => None
     end).
Proof.
  split; [| split; [| split; [| split]]].
  - intros filename Hname. unfold watchDirectory_callback, truthy.
    apply String.eqb_neq in Hname. rewrite Hname. reflexivity.
  - reflexivity.
  - intros eventType filename Htype. unfold watchDirectory_callback.
    apply String.eqb_neq in Htype. rewrite Htype. reflexivity.
  - reflexivity.
  - intros fs r eventType filename Hlive.
    unfold watchDirectory_notify, bind. cbn [in_fs in_reg in_note dw_path dw_watcher].
    rewrite notify_Present by exact Hlive.
    destruct (watchDirectory_callback path eventType filename m) as [[m' res] |];
      reflexivity.
Qed.

(** ** The registration table *)

Lemma close_at_length (r : nat) (l : list Registration) :
  List.length (close_at r l) = List.length l.
Proof.
  revert r. induction l as [| g l IH]; intros [| r]; cbn; auto.
Qed.


Lemma nth_error_close_at (r i : nat) (l : list Registration) :
  nth_error (close_at r l) i =
  if (i =? r)%nat
  then option_map (fun g => {| reg_path := reg_path g; reg_live := false |})
                  (nth_error l i)
  else nth_error l i.
Proof.
  revert r i. induction l as [| g l IH]; intros r i.
  - destruct r, i; cbn; try reflexivity. destruct (i =? r)%nat; reflexivity.
  - destruct r as [| r], i as [| i]; cbn; try reflexivity. apply IH.
Qed.

Lemma close_runs (w : FsWatch) (m : Machine) :
  close w m =
  Some ({| regs := close_at (owned w) (regs m);
           trace := trace m ++ [EvClose (owned w)] |}, tt).
Proof. induction w as [r | parent IH]; [reflexivity | exact IH]. Qed.


(** ** From [Missing] to [Present] *)

(** C7. In state [Missing], the callback handed to the nested [fsWatch] moves
    the watcher to [Present] exactly when the notification is a ["rename"]
    whose name the comparer finds equal to the base name of the path and the
    existence test on the path then succeeds.  The move closes the
    registration held on the ancestor, then opens one on the path itself,
    then calls the callback of this [fsWatch] once with ["rename"] and the
    empty name.  Otherwise nothing changes and nothing is called.  The same
    is said of a notification the store sends to the ancestor registration,
    and, for a directory watcher, with the call of the user's callback in the
    trace after the two store calls.  And no notification moves a watcher
    from [Missing] to [Present] in another way: if it is [Present] afterwards,
    the nested [fsWatch] called this callback with such a ["rename"], and
    the existence test succeeded. *)
Theorem missing_to_present (fs : FileSystem) (path : string)
  (exists_fn : ExistsFn) (parent : FsWatch) (eventType filename : string)
  (m : Machine) (found : bool) :
  exists_fn fs path = Ok found ->
  let renamed := (eventType =? "rename")
                 && (stringComparer fs (basename path) filename =? 0)%Z
                 && found in
  let fresh := List.length (regs m) in
  let m' := {| regs := close_at (owned parent) (regs m)
                       ++ [{| reg_path := path; reg_live := true |}];
               trace := trace m ++ [EvClose (owned parent); EvWatch fresh path] |} in
  missingCallback fs path exists_fn (Missing parent) eventType filename m =
    (if renamed then Some (m', (Present fresh, TailCall "rename" ""))
     else Some (m, (Missing parent, Normal))) /\
  (forall d, parent = Present d -> is_live m d = true ->
     notify fs path exists_fn (Missing parent) d (Notify eventType filename) m =
     (if renamed then Some (m', (Present fresh, TailCall "rename" ""))
      else Some (m, (Missing parent, Normal)))) /\
  (forall d, parent = Present d -> is_live m d = true ->
     exists_fn = directoryExists -> renamed = true ->
     watchDirectory_notify
       {| in_fs := fs; in_reg := d; in_note := Notify eventType filename |}
       {| dw_path := path; dw_watcher := Missing parent |} m =
     Some (after m' [EvDirectory path],
           ({| dw_path := path; dw_watcher := Present fresh |}, Ok tt))) /\
  (forall r note m2 d c,
     deliver fs path exists_fn (Missing parent) r note m
     = Some (m2, (Present d, c)) ->
     exists m1 parent' type name,
       deliver fs (dirname path) directoryExists parent r note m
       = Some (m1, (parent', TailCall type name)) /\
       (type =? "rename") = true /\
       (stringComparer fs (basename path) name =? 0)%Z = true /\
       found = true).
Proof.
  intros Hfound renamed fresh m'.
  assert (Honly : forall r note m2 d c,
     deliver fs path exists_fn (Missing parent) r note m
     = Some (m2, (Present d, c)) ->
     exists m1 parent' type name,
       deliver fs (dirname path) directoryExists parent r note m
       = Some (m1, (parent', TailCall type name)) /\
       (type =? "rename") = true /\
       (stringComparer fs (basename path) name =? 0)%Z = true /\
       found = true).
  { intros r note m2 d c H. cbn [deliver] in H. unfold bind in H.
    destruct (deliver fs (dirname path) directoryExists parent r note m)
      as [[m1 [p1 c1]] |]; [| discriminate].
    destruct c1 as [| type name | msg]; try (injection H; discriminate).
    exists m1, p1, type, name. split; [reflexivity |].
    unfold missingCallback in H. rewrite Hfound in H.
    destruct (type =? "rename"); cbn [andb] in H;
      [| injection H; discriminate].
    destruct (stringComparer fs (basename path) name =? 0)%Z;
      [| injection H; discriminate].
    destruct found; [auto | injection H; discriminate]. }
  assert (Hcb : missingCallback fs path exists_fn (Missing parent)
                  eventType filename m =
                (if renamed then Some (m', (Present fresh, TailCall "rename" ""))
                 else Some (m, (Missing parent, Normal)))).
  { unfold missingCallback, renamed.
    destruct ((eventType =? "rename")
              && (stringComparer fs (basename path) filename =? 0)%Z);
      cbn [andb]; [| reflexivity].
    rewrite Hfound. destruct found; [| reflexivity].
    unfold bind. rewrite close_runs. unfold watchPresent, bind, fs_watch, ret.
    cbn [regs trace owned]. rewrite close_at_length, <- app_assoc.
    reflexivity. }
  assert (Hnote : forall d, parent = Present d -> is_live m d = true ->
     notify fs path exists_fn (Missing parent) d (Notify eventType filename) m =
     (if renamed then Some (m', (Present fresh, TailCall "rename" ""))
      else Some (m, (Missing parent, Normal)))).
  { intros d -> Hlive. unfold notify. rewrite Hlive. cbn [deliver].
    unfold bind at 1. cbn [deliver]. rewrite Nat.eqb_refl. unfold ret at 1.
    exact Hcb. }
  split; [exact Hcb |]. split; [exact Hnote |]. split; [| exact Honly].
  intros d Hparent Hlive -> Hrenamed.
  unfold watchDirectory_notify, bind.
  cbn [in_fs in_reg in_note dw_path dw_watcher].
  rewrite (Hnote d Hparent Hlive), Hrenamed. reflexivity.
Qed.

(** ** The ownership discipline *)

Lemma replay_app (t1 t2 : list Event) :
  forall l,
    replay (t1 ++ t2) l =
    match replay t1 l with
    | Some l1 => replay t2 l1
    | None => None
    end.
Proof.
  induction t1 as [| e t1 IH]; intros l; [reflexivity |].
  destruct e; cbn [replay app]; auto.
  destruct (r =? List.length l)%nat; auto.
Qed.

Lemma disciplined_app (t1 t2 : list Event) :
  forall cur,
    disciplined cur (t1 ++ t2) =
    match disciplined cur t1 with
    | Some c1 => disciplined c1 t2
    | None => None
    end.
Proof.
  induction t1 as [| e t1 IH]; intros cur; [reflexivity |].
  destruct e; cbn [disciplined app]; auto.
  - destruct cur; auto.
  - destruct cur as [c |]; auto. destruct (c =? r)%nat; auto.
Qed.

Lemma file_events_app (t1 t2 : list Event) :
  file_events (t1 ++ t2) = file_events t1 ++ file_events t2.
Proof.
  induction t1 as [| e t1 IH]; [reflexivity |].
  destruct e; cbn [file_events app]; rewrite ?IH; reflexivity.
Qed.

Lemma replay_length (t : list Event) :
  forall l l', replay t l = Some l' -> List.length l <= List.length l'.
Proof.
  induction t as [| e t IH]; intros l l' H; cbn [replay] in H.
  - injection H as <-. lia.
  - destruct e.
    + destruct (r =? List.length l)%nat; [| discriminate].
      apply IH in H. rewrite length_app in H. cbn in H. lia.
    + apply IH in H. rewrite close_at_length in H. exact H.
    + apply IH in H. exact H.
    + apply IH in H. exact H.
Qed.

Lemma moves_refl (cur : option nat) (m : Machine) : moves cur m m cur.
Proof. exists []. rewrite app_nil_r. repeat split; reflexivity. Qed.

Lemma moves_trans (c1 c2 c3 : option nat) (m1 m2 m3 : Machine) :
  moves c1 m1 m2 c2 -> moves c2 m2 m3 c3 -> moves c1 m1 m3 c3.
Proof.
  intros (d1 & Ht1 & Hr1 & Hd1 & Hf1) (d2 & Ht2 & Hr2 & Hd2 & Hf2).
  exists (d1 ++ d2).
  rewrite Ht2, Ht1, app_assoc, replay_app, Hr1, disciplined_app, Hd1,
    file_events_app, Hf1, Hf2.
  repeat split; assumption.
Qed.

Lemma moves_length (c c' : option nat) (m m' : Machine) :
  moves c m m' c' -> List.length (regs m) <= List.length (regs m').
Proof. intros (d & _ & Hr & _). eapply replay_length, Hr. Qed.

Lemma moves_close (w : FsWatch) (m m1 : Machine) :
  close w m = Some (m1, tt) -> moves (Some (owned w)) m m1 None.
Proof.
  rewrite close_runs. intros H. injection H as <-.
  exists [EvClose (owned w)]. cbn. rewrite Nat.eqb_refl. auto.
Qed.

Lemma moves_watchPresent (path : string) (m m1 : Machine) (w : FsWatch) :
  watchPresent path m = Some (m1, w) ->
  moves None m m1 (Some (owned w)) /\ w = Present (List.length (regs m)).
Proof.
  unfold watchPresent, bind, fs_watch, ret. intros H. injection H as <- <-.
  split; [| reflexivity].
  exists [EvWatch (List.length (regs m)) path]. cbn.
  rewrite Nat.eqb_refl. auto.
Qed.

Lemma fsWatch_fuel_moves (fs : FileSystem) (fuel : nat) :
  forall path exists_fn m m' made,
    fsWatch_fuel fuel fs path exists_fn m = Some (m', made) ->
    match made with
    | Ok w => moves None m m' (Some (owned w))
    | Throws _ => m' = m
    end.
Proof.
  induction fuel as [| fuel IH]; intros path exists_fn m m' made H;
    cbn [fsWatch_fuel] in H; [discriminate |].
  destruct (exists_fn fs path) as [[|] | msg].
  - unfold bind in H.
    destruct (watchPresent path m) as [[m1 w] |] eqn:Hw; [| discriminate].
    injection H as <- <-. apply moves_watchPresent in Hw. apply Hw.
  - unfold watchMissing in H.
    destruct (dirname path =? path).
    + injection H as <- <-. reflexivity.
    + unfold bind in H.
      destruct (fsWatch_fuel fuel fs (dirname path) directoryExists m)
        as [[m1 [parent | msg]] |] eqn:Hrec; [| | discriminate];
        injection H as <- <-; apply IH in Hrec; exact Hrec.
  - injection H as <- <-. reflexivity.
Qed.

Lemma onError_handled (fs : FileSystem) (path : string) (exists_fn : ExistsFn)
  (w : FsWatch) (m m' : Machine) (w' : FsWatch) (c : Completion) :
  onError fs path exists_fn w m = Some (m', (w', c)) -> handled m w m' w' c.
Proof.
  unfold onError. intros H.
  destruct (exists_fn fs path) as [[|] | msg].
  - injection H as <- <- <-. exists (Some (owned w)). split; [apply moves_refl | auto].
  - unfold bind in H.
    destruct (close w m) as [[m1 []] |] eqn:Hclose; [| discriminate].
    apply moves_close in Hclose.
    unfold watchMissing in H.
    destruct (dirname path =? path).
    + injection H as <- <- <-. exists None. split; [exact Hclose |].
      right. eauto.
    + unfold bind, fsWatch in H.
      destruct (fsWatch_fuel _ fs (dirname path) directoryExists m1)
        as [[m2 [parent | msg]] |] eqn:Hrec; [| | discriminate];
        injection H as <- <- <-; apply fsWatch_fuel_moves in Hrec.
      * exists (Some (owned parent)). split; [| auto].
        eapply moves_trans; eassumption.
      * subst m2. exists None. split; [exact Hclose |]. right. eauto.
  - injection H as <- <- <-. exists (Some (owned w)). split; [apply moves_refl | auto].
Qed.

Lemma missingCallback_moves (fs : FileSystem) (path : string)
  (exists_fn : ExistsFn) (w : FsWatch) (eventType filename : string)
  (m m' : Machine) (w' : FsWatch) (c : Completion) :
  missingCallback fs path exists_fn w eventType filename m = Some (m', (w', c)) ->
  moves (Some (owned w)) m m' (Some (owned w')).
Proof.
  unfold missingCallback. intros H.
  destruct ((eventType =? "rename")
            && (stringComparer fs (basename path) filename =? 0)%Z).
  - destruct (exists_fn fs path) as [[|] | msg].
    + unfold bind in H.
      destruct (close w m) as [[m1 []] |] eqn:Hclose; [| discriminate].
      destruct (watchPresent path m1) as [[m2 w2] |] eqn:Hw; [| discriminate].
      injection H as <- <- <-.
      apply moves_close in Hclose. apply moves_watchPresent in Hw as [Hw _].
      eapply moves_trans; eassumption.
    + injection H as <- <- <-. apply moves_refl.
    + injection H as <- <- <-. apply moves_refl.
  - injection H as <- <- <-. apply moves_refl.
Qed.

Lemma deliver_handled (fs : FileSystem) (r : nat) (note : Notification)
  (w : FsWatch) :
  forall path exists_fn m m' w' c,
    deliver fs path exists_fn w r note m = Some (m', (w', c)) ->
    (r = owned w -> handled m w m' w' c) /\
    (r <> owned w -> m' = m /\ w' = w /\ c = Normal).
Proof.
  induction w as [d | parent IH]; intros path exists_fn m m' w' c H;
    cbn [deliver owned] in *.
  - destruct (Nat.eqb_spec d r) as [-> | Hne].
    + split; [intros _ | congruence].
      destruct note as [eventType filename |].
      * injection H as <- <- <-. exists (Some r).
        split; [apply moves_refl | auto].
      * apply onError_handled in H. exact H.
    + injection H as <- <- <-. split; [congruence | auto].
  - unfold bind in H.
    destruct (deliver fs (dirname path) directoryExists parent r note m)
      as [[m1 [p1 c1]] |] eqn:Hrec; [| discriminate].
    apply IH in Hrec as [Hmine Hother].
    split.
    + intros Hr. destruct (Hmine Hr) as (cur1 & Hmoves & Hcur1).
      destruct c1 as [| eventType filename | msg].
      * injection H as <- <- <-. exists cur1. split; [exact Hmoves |].
        destruct Hcur1 as [-> | (_ & _ & msg & Habs)]; [auto | discriminate].
      * apply missingCallback_moves in H. cbn [owned] in H.
        destruct Hcur1 as [-> | (_ & _ & msg & Habs)]; [| discriminate].
        exists (Some (owned w')). split; [| auto].
        eapply moves_trans; eassumption.
      * injection H as <- <- <-. exists cur1. split; [exact Hmoves |].
        destruct Hcur1 as [-> | (-> & -> & Hmsg)]; [auto |].
        right. auto.
    + intros Hr. destruct (Hother Hr) as (-> & -> & ->).
      injection H as <- <- <-. auto.
Qed.

Lemma live_in_close_at (r i : nat) (l : list Registration) :
  live_in (close_at r l) i = live_in l i && negb (i =? r)%nat.
Proof.
  unfold live_in. rewrite nth_error_close_at.
  destruct (i =? r)%nat, (nth_error l i) as [g |]; cbn;
    rewrite ?andb_true_r, ?andb_false_r; reflexivity.
Qed.

Lemma live_in_snoc (g : Registration) (i : nat) (l : list Registration) :
  live_in (l ++ [g]) i =
  if (i =? List.length l)%nat then reg_live g else live_in l i.
Proof.
  unfold live_in. destruct (Nat.eqb_spec i (List.length l)) as [-> | Hne].
  - rewrite nth_error_app2, Nat.sub_diag by lia. reflexivity.
  - destruct (Nat.lt_ge_cases i (List.length l)) as [Hlt | Hge].
    + rewrite nth_error_app1 by exact Hlt. reflexivity.
    + assert (Hout : forall l' : list Registration,
                List.length l' <= i -> nth_error l' i = None)
        by (intros l'; apply nth_error_None).
      rewrite !Hout; [reflexivity | exact Hge |].
      rewrite length_app. cbn. lia.
Qed.

(** What the discipline gives on the table: the registration it says live
    is live, and every other registration is as it was. *)
Lemma discipline_live (t : list Event) :
  forall l l' cur cur',
    replay t l = Some l' ->
    disciplined cur t = Some cur' ->
    (forall r, cur = Some r -> live_in l r = true) ->
    (forall r, cur' = Some r -> live_in l' r = true) /\
    (forall i, cur' <> Some i ->
       (live_in l' i = true <-> live_in l i = true /\ cur <> Some i)).
Proof.
  induction t as [| e t IH]; intros l l' cur cur' Hr Hd Hcur;
    cbn [replay disciplined] in Hr, Hd.
  - injection Hr as <-. injection Hd as <-. split; [exact Hcur |].
    intros i Hi. tauto.
  - destruct e as [r q | r | q kind | q].
    + destruct (Nat.eqb_spec r (List.length l)) as [-> | _]; [| discriminate].
      destruct cur as [c |]; [discriminate |].
      destruct (IH _ _ _ _ Hr Hd) as [Hlive Hothers].
      { intros r Heq. injection Heq as <-.
        rewrite live_in_snoc, Nat.eqb_refl. reflexivity. }
      split; [exact Hlive |]. intros i Hi.
      rewrite (Hothers i Hi), live_in_snoc.
      destruct (Nat.eqb_spec i (List.length l)) as [-> | Hne]; cbn.
      * split; [intros [_ Habs]; congruence |].
        intros [Habs _]. unfold live_in in Habs.
        assert (Hout : nth_error l (List.length l) = None)
          by (apply nth_error_None; lia).
        rewrite Hout in Habs. discriminate.
      * split; [intros [H _]; split; [exact H | discriminate] |].
        intros [H _]. split; [exact H | congruence].
    + destruct cur as [c |]; [| discriminate].
      destruct (Nat.eqb_spec c r) as [-> | _]; [| discriminate].
      destruct (IH _ _ _ _ Hr Hd) as [Hlive Hothers]; [discriminate |].
      split; [exact Hlive |]. intros i Hi.
      rewrite (Hothers i Hi), live_in_close_at, andb_true_iff, negb_true_iff.
      destruct (Nat.eqb_spec i r) as [-> | Hne].
      * split; [intros [[_ Habs] _]; discriminate | intros [_ Habs]; congruence].
      * split; [intros [[H _] _] | intros [H _]]; repeat split;
          try assumption; try discriminate; congruence.
    + exact (IH _ _ _ _ Hr Hd Hcur).
    + exact (IH _ _ _ _ Hr Hd Hcur).
Qed.

Lemma disciplined_held (t : list Event) :
  forall cur cur',
    disciplined cur t = Some cur' -> held (as_list cur) t = as_list cur'.
Proof.
  induction t as [| e t IH]; intros cur cur' Hd; cbn [disciplined held] in *.
  - injection Hd as <-. reflexivity.
  - destruct e as [r q | r | q kind | q]; auto.
    + destruct cur as [c |]; [discriminate |]. apply (IH (Some r)), Hd.
    + destruct cur as [c |]; [| discriminate].
      destruct (Nat.eqb_spec c r) as [-> | _]; [| discriminate].
      cbn [as_list remove]. destruct (Nat.eq_dec r r); [| congruence].
      apply (IH None), Hd.
Qed.

Lemma disciplined_prefix (t1 t2 : list Event) (cur cur' : option nat) :
  disciplined cur (t1 ++ t2) = Some cur' ->
  List.length (held (as_list cur) t1) <= 1.
Proof.
  rewrite disciplined_app.
  destruct (disciplined cur t1) as [c1 |] eqn:H1; [| discriminate].
  intros _. erewrite disciplined_held by exact H1. destruct c1; cbn; lia.
Qed.

Lemma moves_live (cur cur' : option nat) (m m' : Machine) :
  moves cur m m' cur' ->
  (forall r, cur = Some r -> is_live m r = true) ->
  (forall r, cur' = Some r -> is_live m' r = true) /\
  (forall i, cur' <> Some i ->
     (is_live m' i = true <-> is_live m i = true /\ cur <> Some i)).
Proof.
  intros (delta & _ & Hr & Hd & _). unfold is_live.
  eapply discipline_live; eassumption.
Qed.

Lemma notify_moves (fs : FileSystem) (path : string) (exists_fn : ExistsFn)
  (w : FsWatch) (r : nat) (note : Notification) (m m' : Machine)
  (w' : FsWatch) (c : Completion) (cur : option nat) :
  holds m w cur ->
  notify fs path exists_fn w r note m = Some (m', (w', c)) ->
  exists cur', moves cur m m' cur' /\ holds m' w' cur'.
Proof.
  unfold notify, holds. intros Hcur H.
  destruct (is_live m r) eqn:Hlive.
  - apply deliver_handled in H as [Hmine Hother].
    destruct (Nat.eq_dec r (owned w)) as [-> | Hne].
    + rewrite Hlive in Hcur. subst cur.
      destruct (Hmine eq_refl) as (cur' & Hmoves & Hcase).
      exists cur'. split; [exact Hmoves |].
      destruct (moves_live Hmoves) as [Hnow Hothers].
      { intros r Heq. injection Heq as <-. exact Hlive. }
      destruct Hcase as [-> | (-> & -> & _)].
      * rewrite (Hnow _ eq_refl). reflexivity.
      * destruct (is_live m' (owned w)) eqn:Hstill; [| reflexivity].
        apply Hothers in Hstill as [_ Habs]; [congruence | discriminate].
    + destruct (Hother Hne) as (-> & -> & _). exists cur.
      split; [apply moves_refl | exact Hcur].
  - injection H as <- <- <-. exists cur. split; [apply moves_refl | exact Hcur].
Qed.

Lemma fsWatch_run_moves (path : string) (exists_fn : ExistsFn)
  (inputs : list Input) :
  forall w m m' w' cs cur,
    holds m w cur ->
    fsWatch_run path exists_fn inputs w m = Some (m', (w', cs)) ->
    exists cur', moves cur m m' cur' /\ holds m' w' cur'.
Proof.
  induction inputs as [| i rest IH]; intros w m m' w' cs cur Hcur H;
    cbn [fsWatch_run] in H.
  - injection H as <- <- <-. exists cur. split; [apply moves_refl | exact Hcur].
  - unfold bind in H.
    destruct (notify (in_fs i) path exists_fn w (in_reg i) (in_note i) m)
      as [[m1 [w1 c1]] |] eqn:Hstep; [| discriminate].
    destruct (fsWatch_run path exists_fn rest w1 m1)
      as [[m2 [w2 cs2]] |] eqn:Hrest; [| discriminate].
    injection H as <- <- <-.
    edestruct notify_moves as (cur1 & Hm1 & Hh1); [exact Hcur | exact Hstep |].
    destruct (IH _ _ _ _ _ _ Hh1 Hrest) as (cur2 & Hm2 & Hh2).
    exists cur2. split; [eapply moves_trans; eassumption | exact Hh2].
Qed.

(** ** The model does not run out of fuel *)

Lemma fsWatch_fuel_total (fs : FileSystem) (fuel : nat) :
  dirname_shrinks ->
  forall path exists_fn m,
    String.length path < fuel ->
    exists m' made, fsWatch_fuel fuel fs path exists_fn m = Some (m', made).
Proof.
  intros Hshrinks.
  induction fuel as [| fuel IH]; intros path exists_fn m Hfuel; [lia |].
  cbn [fsWatch_fuel].
  destruct (exists_fn fs path) as [[|] | msg].
  - unfold bind, watchPresent, bind, fs_watch, ret. eauto.
  - unfold watchMissing.
    destruct (String.eqb_spec (dirname path) path) as [_ | Hne];
      [unfold ret; eauto |].
    specialize (Hshrinks path Hne).
    destruct (IH (dirname path) directoryExists m) as (m1 & made & Hrec);
      [lia |].
    unfold bind. rewrite Hrec. destruct made; unfold ret; eauto.
  - unfold ret. eauto.
Qed.

Lemma fsWatch_total (fs : FileSystem) (path : string) (exists_fn : ExistsFn)
  (m : Machine) :
  dirname_shrinks ->
  exists m' made, fsWatch fs path exists_fn m = Some (m', made).
Proof. intros H. apply fsWatch_fuel_total; [exact H | lia]. Qed.

Lemma onError_total (fs : FileSystem) (path : string) (exists_fn : ExistsFn)
  (w : FsWatch) (m : Machine) :
  dirname_shrinks ->
  exists m' w' c, onError fs path exists_fn w m = Some (m', (w', c)).
Proof.
  intros Hshrinks. unfold onError.
  destruct (exists_fn fs path) as [[|] | msg]; try (unfold ret; eauto; fail).
  unfold bind. rewrite close_runs. unfold watchMissing.
  destruct (dirname path =? path); [unfold ret; eauto |].
  unfold bind.
  match goal with
  | |- context [fsWatch fs ?q ?e ?m1] =>
      destruct (fsWatch_total fs q e m1 Hshrinks) as (m2 & made & Hrec)
  end.
  rewrite Hrec. destruct made; unfold ret; eauto.
Qed.

Lemma missingCallback_total (fs : FileSystem) (path : string)
  (exists_fn : ExistsFn) (w : FsWatch) (eventType filename : string)
  (m : Machine) :
  exists m' w' c,
    missingCallback fs path exists_fn w eventType filename m = Some (m', (w', c)).
Proof.
  unfold missingCallback.
  destruct ((eventType =? "rename") && _); [| unfold ret; eauto].
  destruct (exists_fn fs path) as [[|] | msg]; try (unfold ret; eauto; fail).
  unfold bind. rewrite close_runs.
  unfold watchPresent, bind, fs_watch, ret. eauto.
Qed.

Lemma deliver_total (fs : FileSystem) (r : nat) (note : Notification)
  (w : FsWatch) :
  dirname_shrinks ->
  forall path exists_fn m,
    exists m' w' c, deliver fs path exists_fn w r note m = Some (m', (w', c)).
Proof.
  intros Hshrinks.
  induction w as [d | parent IH]; intros path exists_fn m; cbn [deliver].
  - destruct (d =? r)%nat; [| unfold ret; eauto].
    destruct note; [unfold ret; eauto | apply onError_total, Hshrinks].
  - destruct (IH (dirname path) directoryExists m) as (m1 & p1 & c1 & Hrec).
    unfold bind. rewrite Hrec.
    destruct c1; try (unfold ret; eauto; fail).
    apply missingCallback_total.
Qed.

Lemma notify_total (fs : FileSystem) (path : string) (exists_fn : ExistsFn)
  (w : FsWatch) (r : nat) (note : Notification) (m : Machine) :
  dirname_shrinks ->
  exists m' w' c, notify fs path exists_fn w r note m = Some (m', (w', c)).
Proof.
  intros Hshrinks. unfold notify.
  destruct (is_live m r); [apply deliver_total, Hshrinks | unfold ret; eauto].
Qed.

Lemma fsWatch_run_total (path : string) (exists_fn : ExistsFn)
  (inputs : list Input) :
  dirname_shrinks ->
  forall w m,
    exists m' w' cs, fsWatch_run path exists_fn inputs w m = Some (m', (w', cs)).
Proof.
  intros Hshrinks.
  induction inputs as [| i rest IH]; intros w m; cbn [fsWatch_run].
  - unfold ret. eauto.
  - destruct (notify_total (in_fs i) path exists_fn w (in_reg i) (in_note i) m
                Hshrinks) as (m1 & w1 & c1 & Hstep).
    destruct (IH w1 m1) as (m2 & w2 & cs & Hrest).
    unfold bind. rewrite Hstep, Hrest. unfold ret. eauto.
Qed.

(** C4. A watcher holds at most one live registration at any time.  Take
    any store, any path and existence test, and any sequence of notifications
    (with the content of the store at each).  [fsWatch] returns or throws;
    when it throws it has touched nothing.  When it returns, the run goes
    through, and the store calls the watcher made from the start, [delta],
    keep the discipline: a [fs.watch] comes only when the watcher holds no
    live registration, a [close] closes the one it holds.  So after any part
    [t1] of [delta] the watcher has at most one registration open; at the end
    the registration said live, if any, is the one the watcher holds, and a
    registration is live in the table exactly if it was live before the
    watcher existed or is that one: none is left behind. *)
Theorem one_live_registration (fs0 : FileSystem) (path : string)
  (exists_fn : ExistsFn) (inputs : list Input) (m0 : Machine) :
  dirname_shrinks ->
  exists m1 made,
    fsWatch fs0 path exists_fn m0 = Some (m1, made) /\
    match made with
    | Throws _ => m1 = m0
    | Ok w =>
        exists m2 w' cs delta cur,
          fsWatch_run path exists_fn inputs w m1 = Some (m2, (w', cs)) /\
          trace m2 = trace m0 ++ delta /\
          disciplined None delta = Some cur /\
          (forall t1 t2, delta = t1 ++ t2 -> List.length (held [] t1) <= 1) /\
          (forall r, cur = Some r -> owned w' = r) /\
          (forall i, is_live m2 i = true <-> is_live m0 i = true \/ cur = Some i)
    end.
Proof.
  intros Hshrinks.
  destruct (fsWatch_total fs0 path exists_fn m0 Hshrinks) as (m1 & made & Hmade).
  exists m1, made. split; [exact Hmade |].
  assert (Hfirst := Hmade). apply fsWatch_fuel_moves in Hfirst.
  destruct made as [w | msg]; [| exact Hfirst].
  destruct (fsWatch_run_total path exists_fn inputs Hshrinks w m1)
    as (m2 & w' & cs & Hrun).
  assert (Hholds : holds m1 w (Some (owned w))).
  { unfold holds. destruct (moves_live Hfirst) as [Hnow _]; [discriminate |].
    rewrite (Hnow _ eq_refl). reflexivity. }
  edestruct fsWatch_run_moves as (cur & Hrest & Hend);
    [exact Hholds | exact Hrun |].
  pose proof (moves_trans Hfirst Hrest) as Hall.
  destruct (moves_live Hall) as [Hnow Hothers]; [discriminate |].
  destruct Hall as (delta & Htrace & _ & Hdisc & _).
  exists m2, w', cs, delta, cur.
  split; [exact Hrun |]. split; [exact Htrace |]. split; [exact Hdisc |].
  split; [| split].
  - intros t1 t2 ->. change (@nil nat) with (as_list None).
    eapply disciplined_prefix, Hdisc.
  - intros r ->. unfold holds in Hend.
    destruct (is_live m2 (owned w')); [congruence | discriminate].
  - intros i. destruct cur as [r |].
    + destruct (Nat.eq_dec r i) as [-> | Hne].
      * split; [auto | intros _; apply Hnow; reflexivity].
      * rewrite (Hothers i) by congruence.
        split; [intros [H _]; auto |].
        intros [H | H]; [split; [exact H | discriminate] | congruence].
    + rewrite (Hothers i) by discriminate.
      split; [intros [H _]; auto |].
      intros [H | H]; [split; [exact H | discriminate] | discriminate].
Qed.

(** ** Where [watchMissing] throws *)

Lemma fileExists_never_throws : never_throws fileExists.
Proof. intros fs p. apply fileExists_total. Qed.

Lemma directoryExists_never_throws : never_throws directoryExists.
Proof. intros fs p. apply directoryExists_total. Qed.

Lemma roots_exist_parent (fs : FileSystem) (exists_fn : ExistsFn) (path : string) :
  roots_exist fs exists_fn path ->
  roots_exist fs directoryExists (dirname path).
Proof.
  intros [_ Habove]. split.
  - intros Hroot. apply (Habove 0). exact Hroot.
  - intros k q Hroot. pose proof (Habove (S k)) as H. cbv zeta in H.
    rewrite (Nat.iter_succ_r (S k)) in H. apply H. exact Hroot.
Qed.

Lemma fsWatch_fuel_no_throw (fs : FileSystem) (fuel : nat) :
  forall path exists_fn m m' made,
    never_throws exists_fn ->
    roots_exist fs exists_fn path ->
    fsWatch_fuel fuel fs path exists_fn m = Some (m', made) ->
    exists w, made = Ok w.
Proof.
  induction fuel as [| fuel IH]; intros path exists_fn m m' made Hex Hroots H;
    cbn [fsWatch_fuel] in H; [discriminate |].
  destruct (Hex fs path) as [found Hfound]. rewrite Hfound in H.
  destruct found.
  - unfold bind, watchPresent, bind, fs_watch, ret in H.
    injection H as <- <-. eauto.
  - unfold watchMissing in H.
    destruct (String.eqb_spec (dirname path) path) as [Hroot | _].
    + apply Hroots in Hroot. congruence.
    + unfold bind in H.
      destruct (fsWatch_fuel fuel fs (dirname path) directoryExists m)
        as [[m1 nested] |] eqn:Hrec; [| discriminate].
      apply IH in Hrec as [parent ->];
        [| exact directoryExists_never_throws
         | eapply roots_exist_parent, Hroots].
      injection H as <- <-. eauto.
Qed.

Lemma onError_no_abrupt (fs : FileSystem) (path : string) (exists_fn : ExistsFn)
  (w : FsWatch) (m m' : Machine) (w' : FsWatch) (c : Completion) :
  never_throws exists_fn ->
  roots_exist fs exists_fn path ->
  onError fs path exists_fn w m = Some (m', (w', c)) ->
  forall msg, c <> Abrupt msg.
Proof.
  intros Hex Hroots H msg. unfold onError in H.
  destruct (Hex fs path) as [found Hfound]. rewrite Hfound in H.
  destruct found; [injection H as <- <- <-; discriminate |].
  unfold bind in H. rewrite close_runs in H. unfold watchMissing in H.
  destruct (String.eqb_spec (dirname path) path) as [Hroot | _].
  - apply Hroots in Hroot. congruence.
  - unfold bind, fsWatch in H.
    match type of H with
    | context [fsWatch_fuel ?n fs ?q ?e ?m1] =>
        destruct (fsWatch_fuel n fs q e m1) as [[m2 nested] |] eqn:Hrec;
          [| discriminate]
    end.
    apply fsWatch_fuel_no_throw in Hrec as [parent ->];
      [| exact directoryExists_never_throws
       | eapply roots_exist_parent, Hroots].
    injection H as <- <- <-. discriminate.
Qed.

Lemma missingCallback_no_abrupt (fs : FileSystem) (path : string)
  (exists_fn : ExistsFn) (w : FsWatch) (eventType filename : string)
  (m m' : Machine) (w' : FsWatch) (c : Completion) :
  never_throws exists_fn ->
  missingCallback fs path exists_fn w eventType filename m = Some (m', (w', c)) ->
  forall msg, c <> Abrupt msg.
Proof.
  intros Hex H msg. unfold missingCallback in H.
  destruct ((eventType =? "rename") && _);
    [| injection H as <- <- <-; discriminate].
  destruct (Hex fs path) as [found Hfound]. rewrite Hfound in H.
  destruct found; [| injection H as <- <- <-; discriminate].
  unfold bind in H. rewrite close_runs in H.
  unfold watchPresent, bind, fs_watch, ret in H.
  injection H as <- <- <-. discriminate.
Qed.

Lemma deliver_no_abrupt (fs : FileSystem) (r : nat) (note : Notification)
  (w : FsWatch) :
  forall path exists_fn m m' w' c,
    never_throws exists_fn ->
    roots_exist fs exists_fn path ->
    deliver fs path exists_fn w r note m = Some (m', (w', c)) ->
    forall msg, c <> Abrupt msg.
Proof.
  induction w as [d | parent IH]; intros path exists_fn m m' w' c Hex Hroots H;
    cbn [deliver] in H.
  - destruct (d =? r)%nat; [| injection H as <- <- <-; discriminate].
    destruct note; [injection H as <- <- <-; discriminate |].
    eapply onError_no_abrupt; eassumption.
  - unfold bind in H.
    destruct (deliver fs (dirname path) directoryExists parent r note m)
      as [[m1 [p1 c1]] |] eqn:Hrec; [| discriminate].
    assert (Hnested : forall msg, c1 <> Abrupt msg).
    { eapply IH; [| | exact Hrec].
      - exact directoryExists_never_throws.
      - eapply roots_exist_parent, Hroots. }
    destruct c1 as [| eventType filename | msg1].
    + injection H as <- <- <-. discriminate.
    + eapply missingCallback_no_abrupt; eassumption.
    + destruct (Hnested msg1). reflexivity.
Qed.

Lemma notify_no_abrupt (fs : FileSystem) (path : string) (exists_fn : ExistsFn)
  (w : FsWatch) (r : nat) (note : Notification) (m m' : Machine)
  (w' : FsWatch) (c : Completion) :
  never_throws exists_fn ->
  roots_exist fs exists_fn path ->
  notify fs path exists_fn w r note m = Some (m', (w', c)) ->
  forall msg, c <> Abrupt msg.
Proof.
  intros Hex Hroots H. unfold notify in H.
  destruct (is_live m r); [eapply deliver_no_abrupt; eassumption |].
  injection H as <- <- <-. discriminate.
Qed.

Lemma watchFile_callback_returns (fs : FileSystem) (path : string)
  (s : FileWatchState) (m : Machine) :
  exists m' s', watchFile_callback fs path s m = Some (m', (s', Ok tt)).
Proof.
  rewrite watchFile_callback_body. cbv zeta.
  destruct (eventKind_eqb _ Created && _); [eauto |].
  destruct (eventKind_eqb _ Changed && _); eauto.
Qed.

Lemma watchDirectory_callback_returns (path eventType filename : string)
  (m : Machine) :
  exists m', watchDirectory_callback path eventType filename m = Some (m', Ok tt).
Proof.
  unfold watchDirectory_callback.
  destruct (eventType =? "rename"); unfold bind, emit, ret; eauto.
Qed.

Lemma watchFile_notify_returns (i : Input) (fw : FileWatcher) (m : Machine) :
  dirname_shrinks ->
  roots_exist (in_fs i) fileExists (fw_path fw) ->
  exists m' fw',
    watchFile_notify i fw m = Some (m', (fw', Ok tt)) /\ fw_path fw' = fw_path fw.
Proof.
  intros Hshrinks Hroots. unfold watchFile_notify.
  destruct (notify_total (in_fs i) (fw_path fw) fileExists (fw_watcher fw)
              (in_reg i) (in_note i) m Hshrinks) as (m1 & w1 & c1 & Hstep).
  unfold bind. rewrite Hstep.
  assert (Hok : forall msg, c1 <> Abrupt msg).
  { eapply notify_no_abrupt; [| | exact Hstep];
      [exact fileExists_never_throws | exact Hroots]. }
  destruct c1 as [| eventType filename | msg].
  - unfold ret. eauto.
  - destruct (watchFile_callback_returns (in_fs i) (fw_path fw) (fw_state fw) m1)
      as (m2 & s2 & Hcb).
    rewrite Hcb. unfold ret. eauto.
  - destruct (Hok msg). reflexivity.
Qed.

Lemma watchDirectory_notify_returns (i : Input) (dw : DirectoryWatcher)
  (m : Machine) :
  dirname_shrinks ->
  roots_exist (in_fs i) directoryExists (dw_path dw) ->
  exists m' dw',
    watchDirectory_notify i dw m = Some (m', (dw', Ok tt)) /\
    dw_path dw' = dw_path dw.
Proof.
  intros Hshrinks Hroots. unfold watchDirectory_notify.
  destruct (notify_total (in_fs i) (dw_path dw) directoryExists (dw_watcher dw)
              (in_reg i) (in_note i) m Hshrinks) as (m1 & w1 & c1 & Hstep).
  unfold bind. rewrite Hstep.
  assert (Hok : forall msg, c1 <> Abrupt msg).
  { eapply notify_no_abrupt; [| | exact Hstep];
      [exact directoryExists_never_throws | exact Hroots]. }
  destruct c1 as [| eventType filename | msg].
  - unfold ret. eauto.
  - destruct (watchDirectory_callback_returns (dw_path dw) eventType filename m1)
      as (m2 & Hcb).
    rewrite Hcb. unfold ret. eauto.
  - destruct (Hok msg). reflexivity.
Qed.

(** C6, as the code has it.  [watchMissing] throws when it runs on a path
    that is its own parent, and it runs both when [fsWatch] is called and, in
    a watcher that exists, in the listener of ["error"].  What holds is this:
    as long as every path that is its own parent, at or above the watched
    path, passes the existence test when it is asked, nothing throws, neither
    the construction of the watchers nor any notification to a file watcher
    or to a directory watcher, whatever the sequence. *)
Theorem no_error_while_roots_exist :
  dirname_shrinks ->
  (forall fs path exists_fn m,
     never_throws exists_fn ->
     roots_exist fs exists_fn path ->
     exists m' w, fsWatch fs path exists_fn m = Some (m', Ok w)) /\
  (forall inputs fw m,
     (forall i, In i inputs -> roots_exist (in_fs i) fileExists (fw_path fw)) ->
     exists m' fw' results,
       watchFile_run inputs fw m = Some (m', (fw', results)) /\
       Forall (fun res => res = Ok tt) results) /\
  (forall inputs dw m,
     (forall i, In i inputs ->
                roots_exist (in_fs i) directoryExists (dw_path dw)) ->
     exists m' dw' results,
       watchDirectory_run inputs dw m = Some (m', (dw', results)) /\
       Forall (fun res => res = Ok tt) results).
Proof.
  intros Hshrinks. split; [| split].
  - intros fs path exists_fn m Hex Hroots.
    destruct (fsWatch_total fs path exists_fn m Hshrinks) as (m' & made & H).
    edestruct fsWatch_fuel_no_throw as [w Hw]; [exact Hex | exact Hroots | exact H |].
    subst made. eauto.
  - induction inputs as [| i rest IH]; intros fw m Hroots; cbn [watchFile_run].
    + unfold ret. eauto.
    + destruct (watchFile_notify_returns i fw m Hshrinks)
        as (m1 & fw1 & Hstep & Hpath); [apply Hroots; left; reflexivity |].
      destruct (IH fw1 m1) as (m2 & fw2 & results & Hrest & Hall).
      { intros j Hj. rewrite Hpath. apply Hroots. right. exact Hj. }
      unfold bind. rewrite Hstep, Hrest. unfold ret.
      do 3 eexists. split; [reflexivity | constructor; [reflexivity | exact Hall]].
  - induction inputs as [| i rest IH]; intros dw m Hroots;
      cbn [watchDirectory_run].
    + unfold ret. eauto.
    + destruct (watchDirectory_notify_returns i dw m Hshrinks)
        as (m1 & dw1 & Hstep & Hpath); [apply Hroots; left; reflexivity |].
      destruct (IH dw1 m1) as (m2 & dw2 & results & Hrest & Hall).
      { intros j Hj. rewrite Hpath. apply Hroots. right. exact Hj. }
      unfold bind. rewrite Hstep, Hrest. unfold ret.
      do 3 eexists. split; [reflexivity | constructor; [reflexivity | exact Hall]].
Qed.

(** ** What a file watcher reports *)

Lemma watchFile_callback_report (fs : FileSystem) (path : string)
  (s : FileWatchState) (m : Machine) :
  exists m' s',
    watchFile_callback fs path s m = Some (m', (s', Ok tt)) /\
    let c := mtimeMs (currStats fs path) in
    let p := mtimeMs (prevStats s) in
    ((m' = m /\ prevStats s' = prevStats s) \/
     exists kind,
       m' = after m [EvFile path kind] /\
       prevStats s' = currStats fs path /\
       match kind with
       | Created => (c <> 0 /\ p = 0)%Z /\ exists_ s = true
       | Changed => (p < c)%Z /\ (c <> 0 /\ p <> 0)%Z
       | Deleted => (c = 0 /\ p <> 0)%Z
       end).
Proof.
  rewrite watchFile_callback_body. cbv zeta.
  set (c := mtimeMs (currStats fs path)). set (p := mtimeMs (prevStats s)).
  destruct (eventKind c p) eqn:Hkind; cbn [eventKind_eqb andb negb].
  - destruct (exists_ s) eqn:Hbelief; cbn [negb].
    + do 2 eexists. split; [reflexivity |]. right. exists Created.
      apply eventKind_Created in Hkind. auto.
    + do 2 eexists. split; [reflexivity |]. left. auto.
  - destruct (Z.leb_spec c p) as [Hle | Hgt].
    + do 2 eexists. split; [reflexivity |]. left. auto.
    + do 2 eexists. split; [reflexivity |]. right. exists Changed.
      apply eventKind_Changed in Hkind.
      repeat split; try reflexivity; try assumption; lia.
  - do 2 eexists. split; [reflexivity |]. right. exists Deleted.
    apply eventKind_Deleted in Hkind. auto.
Qed.




Lemma watchFile_run_total (inputs : list Input) :
  dirname_shrinks ->
  forall fw m,
    exists m' fw' results, watchFile_run inputs fw m = Some (m', (fw', results)).
Proof.
  intros Hshrinks.
  induction inputs as [| i rest IH]; intros fw m; cbn [watchFile_run].
  - unfold ret. eauto.
  - assert (Hstep : exists m1 fw1 res1,
               watchFile_notify i fw m = Some (m1, (fw1, res1))).
    { unfold watchFile_notify, bind.
      destruct (notify_total (in_fs i) (fw_path fw) fileExists (fw_watcher fw)
                  (in_reg i) (in_note i) m Hshrinks) as (m1 & w1 & c1 & ->).
      destruct c1; try (unfold ret; eauto; fail).
      destruct (watchFile_callback_returns (in_fs i) (fw_path fw)
                  (fw_state fw) m1) as (m2 & s2 & ->).
      unfold ret. eauto. }
    destruct Hstep as (m1 & fw1 & res1 & Hstep).
    destruct (IH fw1 m1) as (m2 & fw2 & results & Hrest).
    unfold bind. rewrite Hstep, Hrest. unfold ret. eauto.
Qed.


(** *** Exactly what the callback reports *)











End Properties.

(** * Further properties *)

Section MoreProperties.

Context {vp : VPath}.

(** ** [getFileSize] *)

(** X1. [getFileSize] never throws; it is 0 whenever [fileExists] says no
    (the path is absent, or is not a file), and the size the stat gives
    when the path is a file. *)
Theorem getFileSize_zero_unless_file (fs : FileSystem) (path : string) :
  (exists n, getFileSize fs path = Ok n) /\
  (fileExists fs path = Ok false -> getFileSize fs path = Ok 0%Z) /\
  (forall stats, statSync fs path = Ok stats -> isFile stats = true ->
     fileExists fs path = Ok true /\ getFileSize fs path = Ok (size stats)).
Proof.
  unfold getFileSize, fileExists. rewrite getStats_value.
  destruct (statSync fs path) as [stats | msg].
  - split; [eauto |]. split.
    + intros H. injection H as ->. reflexivity.
    + intros stats' H Hfile. injection H as <-. rewrite Hfile. auto.
  - split; [eauto |]. split; [reflexivity | discriminate].
Qed.

(** ** [getDirectories] *)

Lemma for_each_directories (fs : FileSystem) (path : string)
  (names : list string) :
  forall acc,
    fst (for_each (directories_body fs path) names acc) =
    acc ++ filter (directory_stat fs path) (take_while (statable fs path) names).
Proof.
  induction names as [| file rest IH]; intros acc;
    cbn [for_each take_while filter].
  - cbn. rewrite app_nil_r. reflexivity.
  - unfold directories_body at 1, statable at 1.
    destruct (statSync fs (combine path file)) as [stats | msg] eqn:Hstat.
    + cbn [filter]. unfold directory_stat at 1. rewrite Hstat.
      destruct (isDirectory stats); rewrite IH.
      * rewrite <- app_assoc. reflexivity.
      * reflexivity.
    + cbn. rewrite app_nil_r. reflexivity.
Qed.

Lemma take_while_prefix (keep : string -> bool) (names : list string) :
  exists rest, names = take_while keep names ++ rest.
Proof.
  induction names as [| x names [rest IH]]; cbn [take_while].
  - exists []. reflexivity.
  - destruct (keep x).
    + exists rest. cbn. f_equal. exact IH.
    + exists (x :: names). reflexivity.
Qed.

Lemma take_while_all (keep : string -> bool) (names : list string) :
  forallb keep names = true -> take_while keep names = names.
Proof.
  induction names as [| x names IH]; cbn [forallb take_while];
    [reflexivity |].
  intros H. apply andb_true_iff in H as [Hx Hrest]. rewrite Hx, IH by exact Hrest.
  reflexivity.
Qed.

Lemma take_while_incl (keep : string -> bool) (names : list string) (x : string) :
  In x (take_while keep names) -> In x names /\ keep x = true.
Proof.
  induction names as [| y names IH]; cbn [take_while]; [intros [] |].
  destruct (keep y) eqn:Hy; [| intros []].
  intros [<- | Hin]; [split; [left; reflexivity | exact Hy] |].
  destruct (IH Hin). split; [right |]; assumption.
Qed.

(** X2. [getDirectories] never throws.  When the path cannot be listed it
    returns the empty list.  When it can, its loop stops at the first entry
    whose stat throws: the result is the entries that stat as a directory
    among those listed before that entry.  So, in a store where no entry is
    both a file and a directory, it is an initial part of the directories
    [getAccessibleFileSystemEntries] gives (which skips an entry whose stat
    throws and goes on), and all of them when every listed entry can be
    stat-ed. *)
Theorem getDirectories_stops_at_first_failure (fs : FileSystem) (path : string) :
  exists ds,
    getDirectories fs path = Ok ds /\
    (forall msg, readdirSync fs path = Throws msg -> ds = []) /\
    (forall names, readdirSync fs path = Ok names ->
       ds = filter (directory_stat fs path)
                   (take_while (statable fs path) names) /\
       forall e,
         getAccessibleFileSystemEntries fs path = Ok e ->
         (forall file stats,
            In file names -> statSync fs (combine path file) = Ok stats ->
            isFile stats = true -> isDirectory stats = false) ->
         (exists rest, directories e = ds ++ rest) /\
         (forallb (statable fs path) names = true -> directories e = ds)).
Proof.
  unfold getDirectories, getAccessibleFileSystemEntries.
  destruct (readdirSync fs path) as [names | msg].
  - rewrite for_each_directories, for_of_entries. cbn [app fst directories].
    eexists. split; [reflexivity |]. split; [discriminate |].
    intros names' H. injection H as <-. split; [reflexivity |].
    intros e He Hkinds. injection He as <-. cbn [directories].
    assert (Hsame : forall l, (forall x, In x l -> In x names) ->
              filter (directory_stat fs path) (take_while (statable fs path) l)
              = filter (directory_entry fs path)
                       (take_while (statable fs path) l)).
    { intros l Hl. apply filter_ext_in. intros x Hx.
      apply take_while_incl in Hx as [Hx _]. apply Hl in Hx.
      unfold directory_stat, directory_entry.
      destruct (statSync fs (combine path x)) as [stats |] eqn:Hstat;
        [| reflexivity].
      destruct (isFile stats) eqn:Hfile; [| reflexivity].
      rewrite (Hkinds x stats Hx Hstat Hfile). reflexivity. }
    rewrite Hsame by auto.
    split.
    + destruct (take_while_prefix (statable fs path) names) as [rest Hrest].
      exists (filter (directory_entry fs path) rest).
      rewrite <- filter_app, <- Hrest. reflexivity.
    + intros Hall. rewrite take_while_all by exact Hall. reflexivity.
  - cbn [fst]. eexists. split; [reflexivity |]. split; [reflexivity |].
    discriminate.
Qed.

(** ** [createResolver] *)

(** X3. [statSync] of the resolver, when [io] answers: a path [io] calls a
    directory gets the directory flag and not the file flag, size 0, and
    [io.fileExists] is not asked; a path that is not a directory but a file
    gets the file flag and not the directory flag, with the size [io] gives;
    a path that is neither throws ENOENT.  It throws nothing else, and
    only then. *)
Theorem resolver_statSync_kinds (io : Harness.IO) (path : string)
  (d : bool) :
  Harness.directoryExists io path = Ok d ->
  (d = true ->
     exists st, Resolver.statSync io path = Ok st /\
       Z.land (Resolver.mode st) Resolver.S_IFDIR = Resolver.S_IFDIR /\
       Z.land (Resolver.mode st) Resolver.S_IFREG = 0%Z /\
       Resolver.size st = 0%Z) /\
  (d = false ->
     forall n, Harness.fileExists io path = Ok true ->
       Harness.getFileSize io path = Ok n ->
       exists st, Resolver.statSync io path = Ok st /\
         Z.land (Resolver.mode st) Resolver.S_IFREG = Resolver.S_IFREG /\
         Z.land (Resolver.mode st) Resolver.S_IFDIR = 0%Z /\
         Resolver.size st = n) /\
  (d = false -> Harness.fileExists io path = Ok false ->
     Resolver.statSync io path = Throws "ENOENT: path does not exist") /\
  (forall f, Harness.fileExists io path = Ok f ->
     (exists n, Harness.getFileSize io path = Ok n) ->
     ((exists msg, Resolver.statSync io path = Throws msg)
      <-> d = false /\ f = false)).
Proof.
  intros Hd. unfold Resolver.statSync. rewrite Hd.
  split; [| split; [| split]].
  - intros ->. eexists. split; [reflexivity |]. cbn. auto.
  - intros -> n Hf Hn. rewrite Hf, Hn. eexists. split; [reflexivity |].
    cbn. auto.
  - intros -> Hf. rewrite Hf. reflexivity.
  - intros f Hf [n Hn]. rewrite Hf, Hn.
    destruct d, f; split; try (intros [msg H]; discriminate);
      try (intros [? ?]; discriminate); eauto.
Qed.

(** ** Where [fsWatch] puts its registration *)

Lemma ancestor_parent (path : string) (k : nat) :
  ancestor (dirname path) k = ancestor path (S k).
Proof. unfold ancestor. symmetry. apply Nat.iter_succ_r. Qed.

Lemma level_exists_nested (k : nat) :
  level_exists directoryExists k = directoryExists.
Proof. destruct k; reflexivity. Qed.

Lemma fsWatch_fuel_nearest (fs : FileSystem) (fuel : nat) :
  forall path exists_fn m m' made,
    never_throws exists_fn ->
    fsWatch_fuel fuel fs path exists_fn m = Some (m', made) ->
    match made with
    | Ok w =>
        m' = {| regs := regs m ++ [{| reg_path := ancestor path (depth w);
                                      reg_live := true |}];
                trace := trace m ++ [EvWatch (List.length (regs m))
                                             (ancestor path (depth w))] |} /\
        owned w = List.length (regs m) /\
        level_exists exists_fn (depth w) fs (ancestor path (depth w)) = Ok true /\
        (forall k, k < depth w ->
           level_exists exists_fn k fs (ancestor path k) = Ok false)
    | Throws msg =>
        m' = m /\ msg = "ENOENT: path not found." /\
        exists k,
          dirname (ancestor path k) = ancestor path k /\
          forall j, j <= k ->
            level_exists exists_fn j fs (ancestor path j) = Ok false
    end.
Proof.
  induction fuel as [| fuel IH]; intros path exists_fn m m' made Hex H;
    cbn [fsWatch_fuel] in H; [discriminate |].
  destruct (Hex fs path) as [found Hfound]. rewrite Hfound in H.
  destruct found.
  - unfold bind, watchPresent, bind, fs_watch, ret in H.
    injection H as <- <-. cbn [depth owned ancestor Nat.iter level_exists].
    repeat split; try assumption. intros k Hk. lia.
  - unfold watchMissing in H.
    destruct (String.eqb_spec (dirname path) path) as [Hroot | _].
    + injection H as <- <-. repeat split. exists 0. split; [exact Hroot |].
      intros j Hj. assert (j = 0) as -> by lia. exact Hfound.
    + unfold bind in H.
      destruct (fsWatch_fuel fuel fs (dirname path) directoryExists m)
        as [[m1 nested] |] eqn:Hrec; [| discriminate].
      apply IH in Hrec; [| exact directoryExists_never_throws].
      destruct nested as [parent | msg]; injection H as <- <-.
      * destruct Hrec as (Hm & Hown & Hhere & Hbelow).
        cbn [depth owned]. rewrite <- ancestor_parent.
        rewrite level_exists_nested in Hhere.
        split; [exact Hm |]. split; [exact Hown |]. split; [exact Hhere |].
        intros [| k] Hk; [exact Hfound |].
        rewrite <- ancestor_parent.
        specialize (Hbelow k). rewrite level_exists_nested in Hbelow.
        apply Hbelow. lia.
      * destruct Hrec as (Hm & Hmsg & k & Hroot & Hbelow).
        split; [exact Hm |]. split; [exact Hmsg |].
        exists (S k). rewrite <- ancestor_parent. split; [exact Hroot |].
        intros [| j] Hj; [exact Hfound |].
        rewrite <- ancestor_parent.
        specialize (Hbelow j). rewrite level_exists_nested in Hbelow.
        apply Hbelow. lia.
Qed.

(** X4. [fsWatch] watches the nearest path that exists.  Given an existence
    test that does not throw, [fsWatch] returns or throws (it does not run
    for ever when [dirname] shrinks paths).  When it returns, it has made
    exactly one registration, on the first path of the chain path, parent,
    grandparent, ... that passes its test (the given test for the path
    itself, [directoryExists] above), every path before it failing; the
    watcher stands that many levels deep.  When it throws, it has touched
    nothing, the error is ENOENT, and the chain reached a path that is its
    own parent with every path up to it failing its test. *)
Theorem fsWatch_watches_nearest (fs : FileSystem) (path : string)
  (exists_fn : ExistsFn) (m : Machine) :
  dirname_shrinks ->
  never_throws exists_fn ->
  exists m' made,
    fsWatch fs path exists_fn m = Some (m', made) /\
    match made with
    | Ok w =>
        m' = {| regs := regs m ++ [{| reg_path := ancestor path (depth w);
                                      reg_live := true |}];
                trace := trace m ++ [EvWatch (List.length (regs m))
                                             (ancestor path (depth w))] |} /\
        owned w = List.length (regs m) /\
        level_exists exists_fn (depth w) fs (ancestor path (depth w)) = Ok true /\
        (forall k, k < depth w ->
           level_exists exists_fn k fs (ancestor path k) = Ok false)
    | Throws msg =>
        m' = m /\ msg = "ENOENT: path not found." /\
        exists k,
          dirname (ancestor path k) = ancestor path k /\
          forall j, j <= k ->
            level_exists exists_fn j fs (ancestor path j) = Ok false
    end.
Proof.
  intros Hshrinks Hex.
  destruct (fsWatch_total fs path exists_fn m Hshrinks) as (m' & made & H).
  exists m', made. split; [exact H |].
  eapply fsWatch_fuel_nearest; eassumption.
Qed.

(** ** The registration stays where the state says *)

Lemma well_placed_Missing (m : Machine) (path : string) (parent : FsWatch) :
  well_placed m path (Missing parent) <-> well_placed m (dirname path) parent.
Proof.
  unfold well_placed. cbn [owned depth]. rewrite ancestor_parent. tauto.
Qed.

Lemma well_placed_fresh (l : list Registration) (t : list Event) (path : string) :
  well_placed {| regs := l ++ [{| reg_path := path; reg_live := true |}];
                 trace := t |} path (Present (List.length l)).
Proof.
  unfold well_placed. cbn [regs owned depth ancestor Nat.iter].
  rewrite nth_error_app2, Nat.sub_diag by lia. reflexivity.
Qed.

Lemma well_placed_close (m m1 : Machine) (path : string) (w v : FsWatch) :
  close v m = Some (m1, tt) -> well_placed m path w -> well_placed m1 path w.
Proof.
  rewrite close_runs. intros H. injection H as <-.
  unfold well_placed. cbn [regs]. rewrite nth_error_close_at.
  destruct (owned w =? owned v)%nat; [| auto].
  destruct (nth_error (regs m) (owned w)); auto.
Qed.

Lemma watchPresent_placed (path : string) (m m1 : Machine) (w : FsWatch) :
  watchPresent path m = Some (m1, w) -> well_placed m1 path w.
Proof.
  unfold watchPresent, bind, fs_watch, ret. intros H. injection H as <- <-.
  apply well_placed_fresh.
Qed.

Lemma fsWatch_fuel_placed (fs : FileSystem) (fuel : nat) :
  forall path exists_fn m m' w,
    fsWatch_fuel fuel fs path exists_fn m = Some (m', Ok w) ->
    well_placed m' path w.
Proof.
  induction fuel as [| fuel IH]; intros path exists_fn m m' w H;
    cbn [fsWatch_fuel] in H; [discriminate |].
  destruct (exists_fn fs path) as [[|] | msg]; [| | discriminate].
  - unfold bind in H.
    destruct (watchPresent path m) as [[m1 w1] |] eqn:Hw; [| discriminate].
    injection H as <- <-. eapply watchPresent_placed, Hw.
  - unfold watchMissing in H.
    destruct (dirname path =? path); [discriminate |].
    unfold bind in H.
    destruct (fsWatch_fuel fuel fs (dirname path) directoryExists m)
      as [[m1 [parent | msg]] |] eqn:Hrec; try discriminate.
    injection H as <- <-. apply well_placed_Missing. eapply IH, Hrec.
Qed.

Lemma fsWatch_fuel_throws_same (fs : FileSystem) (fuel : nat) :
  forall path exists_fn m m' msg,
    fsWatch_fuel fuel fs path exists_fn m = Some (m', Throws msg) -> m' = m.
Proof.
  intros path exists_fn m m' msg H.
  apply fsWatch_fuel_moves in H. exact H.
Qed.

Lemma onError_placed (fs : FileSystem) (path : string) (exists_fn : ExistsFn)
  (w : FsWatch) (m m' : Machine) (w' : FsWatch) (c : Completion) :
  well_placed m path w ->
  onError fs path exists_fn w m = Some (m', (w', c)) ->
  well_placed m' path w'.
Proof.
  intros Hw H. unfold onError in H.
  destruct (exists_fn fs path) as [[|] | msg];
    try (injection H as <- <- <-; exact Hw).
  unfold bind in H.
  destruct (close w m) as [[m1 []] |] eqn:Hclose; [| discriminate].
  pose proof (well_placed_close _ Hclose Hw) as Hw1.
  unfold watchMissing in H.
  destruct (dirname path =? path); [injection H as <- <- <-; exact Hw1 |].
  unfold bind, fsWatch in H.
  match type of H with
  | context [fsWatch_fuel ?n fs ?q ?e ?m1] =>
      destruct (fsWatch_fuel n fs q e m1) as [[m2 [parent | msg]] |] eqn:Hrec;
        [| | discriminate]
  end; injection H as <- <- <-.
  - apply well_placed_Missing. eapply fsWatch_fuel_placed, Hrec.
  - apply fsWatch_fuel_throws_same in Hrec. subst m2. exact Hw1.
Qed.

Lemma missingCallback_placed (fs : FileSystem) (path : string)
  (exists_fn : ExistsFn) (w : FsWatch) (eventType filename : string)
  (m m' : Machine) (w' : FsWatch) (c : Completion) :
  well_placed m path w ->
  missingCallback fs path exists_fn w eventType filename m = Some (m', (w', c)) ->
  well_placed m' path w'.
Proof.
  intros Hw H. unfold missingCallback in H.
  destruct ((eventType =? "rename") && _);
    [| injection H as <- <- <-; exact Hw].
  destruct (exists_fn fs path) as [[|] | msg];
    try (injection H as <- <- <-; exact Hw).
  unfold bind in H.
  destruct (close w m) as [[m1 []] |]; [| discriminate].
  destruct (watchPresent path m1) as [[m2 w2] |] eqn:Hp; [| discriminate].
  injection H as <- <- <-. eapply watchPresent_placed, Hp.
Qed.

Lemma deliver_placed (fs : FileSystem) (r : nat) (note : Notification)
  (w : FsWatch) :
  forall path exists_fn m m' w' c,
    well_placed m path w ->
    deliver fs path exists_fn w r note m = Some (m', (w', c)) ->
    well_placed m' path w'.
Proof.
  induction w as [d | parent IH]; intros path exists_fn m m' w' c Hw H;
    cbn [deliver] in H.
  - destruct (d =? r)%nat; [| injection H as <- <- <-; exact Hw].
    destruct note; [injection H as <- <- <-; exact Hw |].
    eapply onError_placed; eassumption.
  - unfold bind in H.
    destruct (deliver fs (dirname path) directoryExists parent r note m)
      as [[m1 [p1 c1]] |] eqn:Hrec; [| discriminate].
    apply well_placed_Missing in Hw.
    pose proof (IH _ _ _ _ _ _ Hw Hrec) as Hp1.
    apply well_placed_Missing in Hp1.
    destruct c1 as [| eventType filename | msg];
      try (injection H as <- <- <-; exact Hp1).
    eapply missingCallback_placed; eassumption.
Qed.

Lemma fsWatch_run_placed (path : string) (exists_fn : ExistsFn)
  (inputs : list Input) :
  forall w m m' w' cs,
    well_placed m path w ->
    fsWatch_run path exists_fn inputs w m = Some (m', (w', cs)) ->
    well_placed m' path w'.
Proof.
  induction inputs as [| i rest IH]; intros w m m' w' cs Hw H;
    cbn [fsWatch_run] in H.
  - injection H as <- <- <-. exact Hw.
  - unfold bind in H.
    destruct (notify (in_fs i) path exists_fn w (in_reg i) (in_note i) m)
      as [[m1 [w1 c1]] |] eqn:Hstep; [| discriminate].
    destruct (fsWatch_run path exists_fn rest w1 m1)
      as [[m2 [w2 cs2]] |] eqn:Hrest; [| discriminate].
    injection H as <- <- <-.
    eapply IH; [| exact Hrest].
    unfold notify in Hstep.
    destruct (is_live m (in_reg i)).
    + eapply deliver_placed; eassumption.
    + injection Hstep as <- <- <-. exact Hw.
Qed.

(** X5. The registration a watcher holds is always on the path its state
    says.  From the call of [fsWatch] on, through any notifications and any
    contents of the store, the registration the watcher holds was made on
    the watched path when the watcher is [Present], and on its ancestor [k]
    levels up when it is [Missing] [k] levels deep; this holds after a
    listener threw as well. *)
Theorem registration_well_placed (fs0 : FileSystem) (path : string)
  (exists_fn : ExistsFn) (inputs : list Input) (m0 : Machine) :
  dirname_shrinks ->
  exists m1 made,
    fsWatch fs0 path exists_fn m0 = Some (m1, made) /\
    forall w, made = Ok w ->
      well_placed m1 path w /\
      exists m2 w' cs,
        fsWatch_run path exists_fn inputs w m1 = Some (m2, (w', cs)) /\
        well_placed m2 path w'.
Proof.
  intros Hshrinks.
  destruct (fsWatch_total fs0 path exists_fn m0 Hshrinks) as (m1 & made & Hmade).
  exists m1, made. split; [exact Hmade |]. intros w ->.
  assert (Hw : well_placed m1 path w) by (eapply fsWatch_fuel_placed, Hmade).
  split; [exact Hw |].
  destruct (fsWatch_run_total path exists_fn inputs Hshrinks w m1)
    as (m2 & w' & cs & Hrun).
  exists m2, w', cs. split; [exact Hrun |].
  eapply fsWatch_run_placed; eassumption.
Qed.

(** ** Notifications that change nothing *)

Lemma deliver_error_ignored (fs : FileSystem) (r : nat) (w : FsWatch) :
  forall path exists_fn m,
    level_exists exists_fn (depth w) fs (ancestor path (depth w)) = Ok true ->
    deliver fs path exists_fn w r Error m = Some (m, (w, Normal)).
Proof.
  induction w as [d | parent IH]; intros path exists_fn m Hthere;
    cbn [deliver depth] in *.
  - change (exists_fn fs path = Ok true) in Hthere.
    destruct (d =? r)%nat; [| reflexivity].
    unfold onError. rewrite Hthere. reflexivity.
  - cbn [level_exists] in Hthere. rewrite <- ancestor_parent in Hthere.
    unfold bind. rewrite IH; [reflexivity |].
    rewrite level_exists_nested. exact Hthere.
Qed.

(** X6. An ["error"] on the registration while the path it was made on
    still passes its existence test is ignored, at every depth: the listener
    closes nothing, opens nothing, and no callback is called; for a file
    watcher the closure variables stay as they are. *)
Theorem error_ignored_while_path_exists (fs : FileSystem) (path : string)
  (exists_fn : ExistsFn) (w : FsWatch) (r : nat) (m : Machine) :
  level_exists exists_fn (depth w) fs (ancestor path (depth w)) = Ok true ->
  notify fs path exists_fn w r Error m = Some (m, (w, Normal)) /\
  (exists_fn = fileExists ->
   forall s,
     watchFile_notify {| in_fs := fs; in_reg := r; in_note := Error |}
       {| fw_path := path; fw_state := s; fw_watcher := w |} m =
     Some (m, ({| fw_path := path; fw_state := s; fw_watcher := w |}, Ok tt))).
Proof.
  intros Hthere.
  assert (Hnote : forall e,
            level_exists e (depth w) fs (ancestor path (depth w)) = Ok true ->
            notify fs path e w r Error m = Some (m, (w, Normal))).
  { intros e He. unfold notify. destruct (is_live m r); [| reflexivity].
    apply deliver_error_ignored, He. }
  split; [apply Hnote, Hthere |].
  intros -> s. unfold watchFile_notify, bind.
  cbn [in_fs in_reg in_note fw_path fw_state fw_watcher].
  rewrite (Hnote fileExists Hthere). reflexivity.
Qed.

Lemma deliver_other_type (fs : FileSystem) (r : nat)
  (eventType filename : string) (w : FsWatch) :
  (eventType =? "rename") = false ->
  forall path exists_fn m,
    exists c,
      deliver fs path exists_fn w r (Notify eventType filename) m
      = Some (m, (w, c)) /\
      (c = Normal \/ c = TailCall eventType filename).
Proof.
  intros Htype.
  induction w as [d | parent IH]; intros path exists_fn m; cbn [deliver].
  - destruct (d =? r)%nat; unfold ret; eauto.
  - destruct (IH (dirname path) directoryExists m) as (c & Hrec & Hc).
    unfold bind. rewrite Hrec.
    destruct Hc as [-> | ->]; [unfold ret; eauto |].
    unfold missingCallback. rewrite Htype. cbn [andb]. unfold ret. eauto.
Qed.

(** X7. While the watched path is missing, only ["rename"] counts.  A
    notification of any other type that the store sends to whatever
    registration, the watcher being [Missing] at any depth, closes nothing,
    opens nothing and calls nothing: the watcher and the machine stay as they
    are, and a file watcher reports nothing and keeps its closure
    variables. *)
Theorem missing_ignores_other_types (fs : FileSystem) (path : string)
  (exists_fn : ExistsFn) (parent : FsWatch) (r : nat)
  (eventType filename : string) (m : Machine) :
  eventType <> "rename" ->
  notify fs path exists_fn (Missing parent) r (Notify eventType filename) m
  = Some (m, (Missing parent, Normal)) /\
  (exists_fn = fileExists ->
   forall s,
     watchFile_notify
       {| in_fs := fs; in_reg := r; in_note := Notify eventType filename |}
       {| fw_path := path; fw_state := s; fw_watcher := Missing parent |} m =
     Some (m, ({| fw_path := path; fw_state := s;
                  fw_watcher := Missing parent |}, Ok tt))).
Proof.
  intros Htype. apply String.eqb_neq in Htype.
  assert (Hnote : forall e,
            notify fs path e (Missing parent) r (Notify eventType filename) m
            = Some (m, (Missing parent, Normal))).
  { intros e. unfold notify. destruct (is_live m r); [| reflexivity].
    cbn [deliver]. unfold bind.
    destruct (@deliver_other_type fs r eventType filename parent Htype
                (dirname path) directoryExists m) as (c & -> & [-> | ->]);
      [reflexivity |].
    unfold missingCallback. rewrite Htype. reflexivity. }
  split; [apply Hnote |].
  intros -> s. unfold watchFile_notify, bind.
  cbn [in_fs in_reg in_note fw_path fw_state fw_watcher].
  rewrite Hnote. reflexivity.
Qed.

(** ** The same store, asked again *)

Lemma after_nil (m : Machine) : after m [] = m.
Proof. unfold after. rewrite app_nil_r. destruct m; reflexivity. Qed.

Lemma is_live_after (m : Machine) (t : list Event) (r : nat) :
  is_live (after m t) r = is_live m r.
Proof. reflexivity. Qed.

Lemma watchFile_notify_Present (fs : FileSystem) (path : string)
  (s : FileWatchState) (r : nat) (eventType filename : string) (m : Machine) :
  is_live m r = true ->
  watchFile_notify
    {| in_fs := fs; in_reg := r; in_note := Notify eventType filename |}
    {| fw_path := path; fw_state := s; fw_watcher := Present r |} m =
  match watchFile_callback fs path s m with
  | Some (m', (s', res)) =>
      Some (m', ({| fw_path := path; fw_state := s'; fw_watcher := Present r |},
                 res))
  | None => None
  end.
Proof.
  intros Hlive. unfold watchFile_notify, bind.
  cbn [in_fs in_reg in_note fw_path fw_state fw_watcher].
  rewrite notify_Present by exact Hlive.
  destruct (watchFile_callback fs path s m) as [[m' [s' res]] |]; reflexivity.
Qed.

(** The callback says nothing and changes nothing: the current time is the
    stored one, or an earlier one. *)
Lemma callback_quiet (fs : FileSystem) (path : string) (s : FileWatchState)
  (m : Machine) :
  eventKind (mtimeMs (currStats fs path)) (mtimeMs (prevStats s)) = Changed ->
  (mtimeMs (currStats fs path) <= mtimeMs (prevStats s))%Z ->
  watchFile_callback fs path s m = Some (m, (s, Ok tt)).
Proof.
  intros Hkind Hle. rewrite watchFile_callback_body. cbv zeta.
  rewrite Hkind. cbn [eventKind_eqb andb].
  apply Z.leb_le in Hle. rewrite Hle. reflexivity.
Qed.

Lemma eventKind_same (c : Z) : eventKind c c = Changed.
Proof.
  apply eventKind_Changed. destruct (Z.eq_dec c 0); [right | left]; auto.
Qed.

Lemma run_quiet (fs : FileSystem) (path : string) (s : FileWatchState)
  (r : nat) (notes : list (string * string)) :
  eventKind (mtimeMs (currStats fs path)) (mtimeMs (prevStats s)) = Changed ->
  (mtimeMs (currStats fs path) <= mtimeMs (prevStats s))%Z ->
  forall m,
    is_live m r = true ->
    watchFile_run (notifications fs r notes)
      {| fw_path := path; fw_state := s; fw_watcher := Present r |} m =
    Some (m, ({| fw_path := path; fw_state := s; fw_watcher := Present r |},
              repeat (Ok tt) (List.length notes))).
Proof.
  intros Hkind Hle. unfold notifications.
  induction notes as [| note notes IH]; intros m Hlive;
    cbn [map List.length repeat watchFile_run]; [reflexivity |].
  unfold bind. rewrite watchFile_notify_Present by exact Hlive.
  rewrite callback_quiet by assumption.
  rewrite IH by exact Hlive. reflexivity.
Qed.

(** X8. Asked again about the same store, a file watcher reports at most
    once.  Let the store send any sequence of notifications, of any types
    and with any names, to the listener of the registration of a [Present]
    file watcher while the content of the store stays the same: every call
    returns, the registrations are untouched, and the whole run calls the
    user's callback at most once. *)
Theorem same_store_reports_at_most_once (fs : FileSystem) (path : string)
  (s : FileWatchState) (r : nat) (notes : list (string * string))
  (m : Machine) :
  is_live m r = true ->
  exists s' delta,
    watchFile_run (notifications fs r notes)
      {| fw_path := path; fw_state := s; fw_watcher := Present r |} m =
    Some (after m delta,
          ({| fw_path := path; fw_state := s'; fw_watcher := Present r |},
           repeat (Ok tt) (List.length notes))) /\
    List.length delta <= 1 /\
    List.length (file_events delta) = List.length delta.
Proof.
  intros Hlive.
  set (c := mtimeMs (currStats fs path)).
  (* a state that has just stored the current snapshot is quiet *)
  assert (Hstored : forall e l m1 t,
            is_live m1 r = true ->
            watchFile_run (notifications fs r l)
              {| fw_path := path;
                 fw_state := {| prevStats := currStats fs path; exists_ := e |};
                 fw_watcher := Present r |} (after m1 t) =
            Some (after m1 t,
                  ({| fw_path := path;
                      fw_state := {| prevStats := currStats fs path;
                                     exists_ := e |};
                      fw_watcher := Present r |},
                   repeat (Ok tt) (List.length l)))).
  { intros e l m1 t Hl. apply run_quiet; cbn [prevStats];
      [apply eventKind_same | lia | exact Hl]. }
  destruct notes as [| note notes].
  - exists s, []. rewrite after_nil. cbn. auto.
  - change (notifications fs r (note :: notes))
      with ({| in_fs := fs; in_reg := r;
               in_note := Notify (fst note) (snd note) |}
            :: notifications fs r notes).
    cbn [List.length repeat watchFile_run]. unfold bind.
    rewrite watchFile_notify_Present by exact Hlive.
    rewrite watchFile_callback_body. cbv zeta. fold c.
    destruct (eventKind c (mtimeMs (prevStats s))) eqn:Hkind;
      cbn [eventKind_eqb andb negb].
    + destruct (exists_ s) eqn:Hbelief; cbn [negb].
      * rewrite Hstored by exact Hlive.
        do 2 eexists. split; [reflexivity |]. cbn. auto.
      * destruct notes as [| note2 notes].
        -- exists {| prevStats := prevStats s; exists_ := true |}, [].
           rewrite after_nil. cbn. auto.
        -- change (notifications fs r (note2 :: notes))
             with ({| in_fs := fs; in_reg := r;
                      in_note := Notify (fst note2) (snd note2) |}
                   :: notifications fs r notes).
           cbn [List.length repeat watchFile_run]. unfold bind.
           rewrite watchFile_notify_Present by exact Hlive.
           rewrite watchFile_callback_body. cbv zeta. cbn [prevStats exists_].
           fold c. rewrite Hkind. cbn [eventKind_eqb andb negb].
           rewrite Hstored by exact Hlive.
           do 2 eexists. split; [reflexivity |]. cbn. auto.
    + destruct (Z.leb_spec c (mtimeMs (prevStats s))) as [Hle | Hgt].
      * rewrite run_quiet by assumption.
        exists s, []. rewrite after_nil. cbn. auto.
      * rewrite Hstored by exact Hlive.
        do 2 eexists. split; [reflexivity |]. cbn. auto.
    + rewrite Hstored by exact Hlive.
      do 2 eexists. split; [reflexivity |]. cbn. auto.
Qed.

(** ** A path goes, a path comes *)

Lemma notify_error_moves_up (fs : FileSystem) (path : string)
  (exists_fn : ExistsFn) (r : nat) (m : Machine) :
  is_live m r = true ->
  exists_fn fs path = Ok false ->
  dirname path <> path ->
  directoryExists fs (dirname path) = Ok true ->
  notify fs path exists_fn (Present r) r Error m =
  Some ({| regs := close_at r (regs m)
                   ++ [{| reg_path := dirname path; reg_live := true |}];
           trace := trace m ++ [EvClose r;
                                EvWatch (List.length (regs m)) (dirname path)] |},
        (Missing (Present (List.length (regs m))), TailCall "rename" "")).
Proof.
  intros Hlive Hgone Hroot Hparent. unfold notify. rewrite Hlive.
  cbn [deliver]. rewrite Nat.eqb_refl. unfold onError. rewrite Hgone.
  unfold bind. rewrite close_runs. unfold watchMissing.
  apply String.eqb_neq in Hroot. rewrite Hroot.
  unfold bind, fsWatch. cbn [fsWatch_fuel]. rewrite Hparent.
  unfold bind, watchPresent, bind, fs_watch, ret. cbn [regs trace owned].
  rewrite close_at_length, <- app_assoc. reflexivity.
Qed.

(** X9. A watched path goes.  The store sends ["error"] to the registration
    of a [Present] watcher, the path fails its existence test, and its
    parent is a directory that exists: the watcher closes its registration,
    then opens one on the parent, and is [Missing] one level deep.  After
    these two store calls a file watcher that had reported the file, and now
    finds no stat, calls the callback with [Deleted], stores the absent
    snapshot and believes the file gone; a file watcher that had reported
    nothing calls nothing; a directory watcher calls the callback with the
    directory path. *)
Theorem path_removed (fs : FileSystem) (path : string) (r : nat) (m : Machine) :
  is_live m r = true ->
  dirname path <> path ->
  directoryExists fs (dirname path) = Ok true ->
  let fresh := List.length (regs m) in
  let m' := {| regs := close_at r (regs m)
                       ++ [{| reg_path := dirname path; reg_live := true |}];
               trace := trace m ++ [EvClose r; EvWatch fresh (dirname path)] |} in
  let error := {| in_fs := fs; in_reg := r; in_note := Error |} in
  (forall msg s,
     statSync fs path = Throws msg ->
     watchFile_notify error
       {| fw_path := path; fw_state := s; fw_watcher := Present r |} m =
     if (mtimeMs (prevStats s) =? 0)%Z then
       Some (m', ({| fw_path := path; fw_state := s;
                     fw_watcher := Missing (Present fresh) |}, Ok tt))
     else
       Some (after m' [EvFile path Deleted],
             ({| fw_path := path;
                 fw_state := {| prevStats := Stats_new; exists_ := false |};
                 fw_watcher := Missing (Present fresh) |}, Ok tt))) /\
  (directoryExists fs path = Ok false ->
   watchDirectory_notify error
     {| dw_path := path; dw_watcher := Present r |} m =
   Some (after m' [EvDirectory path],
         ({| dw_path := path; dw_watcher := Missing (Present fresh) |}, Ok tt))).
Proof.
  intros Hlive Hroot Hparent fresh m' error. split.
  - intros msg s Hstat.
    assert (Hgone : fileExists fs path = Ok false).
    { unfold fileExists, getStats. rewrite Hstat. reflexivity. }
    unfold watchFile_notify, bind, error.
    cbn [in_fs in_reg in_note fw_path fw_state fw_watcher].
    rewrite (@notify_error_moves_up fs path fileExists r m Hlive Hgone Hroot Hparent).
    fold fresh. fold m'.
    rewrite watchFile_callback_body. cbv zeta.
    unfold currStats. rewrite Hstat. cbn [mtimeMs Stats_new].
    unfold eventKind. cbn [Z.eqb negb andb].
    destruct (mtimeMs (prevStats s) =? 0)%Z eqn:Hprev; cbn [negb andb eventKind_eqb].
    + apply Z.eqb_eq in Hprev. rewrite Hprev. cbn. destruct s; reflexivity.
    + reflexivity.
  - intros Hgone. unfold watchDirectory_notify, bind, error.
    cbn [in_fs in_reg in_note dw_path dw_watcher].
    rewrite (@notify_error_moves_up fs path directoryExists r m Hlive Hgone Hroot
               Hparent).
    reflexivity.
Qed.

Lemma notify_rename_moves_down (fs : FileSystem) (path : string)
  (exists_fn : ExistsFn) (d : nat) (name : string) (m : Machine) :
  is_live m d = true ->
  stringComparer fs (basename path) name = 0%Z ->
  exists_fn fs path = Ok true ->
  notify fs path exists_fn (Missing (Present d)) d (Notify "rename" name) m =
  Some ({| regs := close_at d (regs m)
                   ++ [{| reg_path := path; reg_live := true |}];
           trace := trace m ++ [EvClose d; EvWatch (List.length (regs m)) path] |},
        (Present (List.length (regs m)), TailCall "rename" "")).
Proof.
  intros Hlive Hname Hthere. unfold notify. rewrite Hlive.
  cbn [deliver]. unfold bind at 1. rewrite Nat.eqb_refl. unfold ret at 1.
  unfold missingCallback. rewrite Hname, Hthere, String.eqb_refl.
  cbn [andb Z.eqb].
  unfold bind. rewrite close_runs.
  unfold watchPresent, bind, fs_watch, ret. cbn [regs trace owned].
  rewrite close_at_length, <- app_assoc. reflexivity.
Qed.

(** X10. A watched file comes, and it takes two notifications to hear of
    it.  A file watcher waits one level deep for a file it never reported
    and does not believe to exist; the file is made, with a modification
    time.  The ["rename"] with its base name moves the watcher to [Present]
    (close on the parent, then a registration on the file) and calls the
    callback of [watchFile], which reports nothing and only notes that the
    file exists.  The next notification on the new registration, whatever
    its type and name, reports [Created], once, and stores the snapshot. *)
Theorem file_created_needs_two_notifications (fs : FileSystem) (path : string)
  (s : FileWatchState) (d : nat) (name : string) (stats : Stats) (m : Machine) :
  is_live m d = true ->
  mtimeMs (prevStats s) = 0%Z ->
  exists_ s = false ->
  statSync fs path = Ok stats ->
  isFile stats = true ->
  mtimeMs stats <> 0%Z ->
  stringComparer fs (basename path) name = 0%Z ->
  let fresh := List.length (regs m) in
  let m1 := {| regs := close_at d (regs m)
                       ++ [{| reg_path := path; reg_live := true |}];
               trace := trace m ++ [EvClose d; EvWatch fresh path] |} in
  let noted := {| fw_path := path;
                  fw_state := {| prevStats := prevStats s; exists_ := true |};
                  fw_watcher := Present fresh |} in
  watchFile_notify
    {| in_fs := fs; in_reg := d; in_note := Notify "rename" name |}
    {| fw_path := path; fw_state := s; fw_watcher := Missing (Present d) |} m =
  Some (m1, (noted, Ok tt)) /\
  forall eventType filename,
    watchFile_notify
      {| in_fs := fs; in_reg := fresh; in_note := Notify eventType filename |}
      noted m1 =
    Some (after m1 [EvFile path Created],
          ({| fw_path := path;
              fw_state := {| prevStats := stats; exists_ := true |};
              fw_watcher := Present fresh |}, Ok tt)).
Proof.
  intros Hlive Hprev Hbelief Hstat Hfile Hmtime Hname fresh m1 noted.
  assert (Hthere : fileExists fs path = Ok true).
  { unfold fileExists, getStats. rewrite Hstat, Hfile. reflexivity. }
  assert (Hkind : eventKind (mtimeMs (currStats fs path)) 0 = Created).
  { apply eventKind_Created. unfold currStats. rewrite Hstat. auto. }
  split.
  - unfold watchFile_notify, bind.
    cbn [in_fs in_reg in_note fw_path fw_state fw_watcher].
    rewrite (@notify_rename_moves_down fs path fileExists d name m Hlive Hname
               Hthere).
    fold fresh. fold m1.
    rewrite watchFile_callback_body. cbv zeta.
    rewrite Hprev, Hkind, Hbelief. reflexivity.
  - intros eventType filename. unfold noted.
    rewrite watchFile_notify_Present.
    + rewrite watchFile_callback_body. cbv zeta. cbn [prevStats exists_].
      rewrite Hprev, Hkind. cbn [eventKind_eqb andb negb].
      unfold currStats. rewrite Hstat. reflexivity.
    + unfold is_live, m1, fresh. cbn [regs].
      rewrite live_in_snoc, close_at_length, Nat.eqb_refl. reflexivity.
Qed.

(** ** [watchFile] works on the resolved path *)

Lemma no_file_event_reports_only (path : string) (t : list Event) :
  file_events t = [] -> reports_only path t.
Proof.
  unfold reports_only. induction t as [| e t IH]; intros H; constructor.
  - destruct e; try exact I. discriminate.
  - apply IH. destruct e; try exact H. discriminate.
Qed.

Lemma watchFile_notify_reports_only (i : Input) (fw : FileWatcher)
  (m m' : Machine) (fw' : FileWatcher) (res : result unit) :
  watchFile_notify i fw m = Some (m', (fw', res)) ->
  fw_path fw' = fw_path fw /\
  exists delta, trace m' = trace m ++ delta /\ reports_only (fw_path fw) delta.
Proof.
  unfold watchFile_notify, bind. intros H.
  destruct (notify (in_fs i) (fw_path fw) fileExists (fw_watcher fw)
              (in_reg i) (in_note i) m) as [[m1 [w1 c1]] |] eqn:Hstep;
    [| discriminate].
  edestruct notify_moves as (cur1 & (d1 & Ht1 & _ & _ & Hf1) & _);
    [reflexivity | exact Hstep |].
  apply (no_file_event_reports_only (fw_path fw)) in Hf1.
  destruct c1 as [| eventType filename | msg].
  - injection H as <- <- <-. split; [reflexivity |]. eauto.
  - destruct (watchFile_callback_report (in_fs i) (fw_path fw) (fw_state fw) m1)
      as (m2 & s2 & Hcb & Hcase).
    rewrite Hcb in H. injection H as <- <- <-. split; [reflexivity |].
    cbv zeta in Hcase.
    destruct Hcase as [[-> _] | (kind & -> & _)]; [eauto |].
    exists (d1 ++ [EvFile (fw_path fw) kind]).
    cbn [after trace]. rewrite Ht1, app_assoc. split; [reflexivity |].
    apply Forall_app. split; [exact Hf1 |]. constructor; [reflexivity | constructor].
  - injection H as <- <- <-. split; [reflexivity |]. eauto.
Qed.

Lemma watchFile_run_reports_only (inputs : list Input) :
  forall fw m m' fw' results,
    watchFile_run inputs fw m = Some (m', (fw', results)) ->
    fw_path fw' = fw_path fw /\
    exists delta, trace m' = trace m ++ delta /\ reports_only (fw_path fw) delta.
Proof.
  induction inputs as [| i rest IH]; intros fw m m' fw' results H;
    cbn [watchFile_run] in H.
  - injection H as <- <- <-. split; [reflexivity |].
    exists []. rewrite app_nil_r. split; [reflexivity | constructor].
  - unfold bind in H.
    destruct (watchFile_notify i fw m) as [[m1 [fw1 res1]] |] eqn:Hstep;
      [| discriminate].
    destruct (watchFile_run rest fw1 m1) as [[m2 [fw2 results2]] |] eqn:Hrest;
      [| discriminate].
    injection H as <- <- <-.
    apply watchFile_notify_reports_only in Hstep as (Hp1 & d1 & Ht1 & Hr1).
    apply IH in Hrest as (Hp2 & d2 & Ht2 & Hr2).
    rewrite Hp1 in Hp2, Hr2. split; [exact Hp2 |].
    exists (d1 ++ d2). rewrite Ht2, Ht1, app_assoc. split; [reflexivity |].
    apply Forall_app. split; assumption.
Qed.

(** X11. [watchFile] works on the resolved path.  The watcher it returns
    is about the path resolved against the current directory of the store,
    with the snapshot and the belief taken on that path; and in any run every
    call of the user's callback names that resolved path, whatever names the
    notifications carry. *)
Theorem watchFile_reports_resolved_path (fs0 : FileSystem) (path : string)
  (inputs : list Input) (m0 m1 : Machine) (fw : FileWatcher) :
  dirname_shrinks ->
  watchFile fs0 path m0 = Some (m1, Ok fw) ->
  let resolved := resolve (cwd fs0) path in
  fw_path fw = resolved /\
  watchFile_init fs0 resolved = Ok (fw_state fw) /\
  exists m2 fw' results delta,
    watchFile_run inputs fw m1 = Some (m2, (fw', results)) /\
    fw_path fw' = resolved /\
    trace m2 = trace m1 ++ delta /\
    reports_only resolved delta.
Proof.
  intros Hshrinks Hmade resolved.
  unfold watchFile in Hmade. fold resolved in Hmade.
  destruct (watchFile_init fs0 resolved) as [s | msg] eqn:Hinit;
    [| discriminate].
  unfold bind in Hmade.
  destruct (fsWatch fs0 resolved fileExists m0) as [[m' [w | msg]] |];
    try discriminate.
  injection Hmade as <- <-. cbn [fw_path fw_state].
  split; [reflexivity |]. split; [reflexivity |].
  destruct (watchFile_run_total inputs Hshrinks
              {| fw_path := resolved; fw_state := s; fw_watcher := w |} m')
    as (m2 & fw' & results & Hrun).
  destruct (watchFile_run_reports_only _ _ _ Hrun) as (Hpath & delta & Ht & Hr).
  exists m2, fw', results, delta. auto.
Qed.

(** ** A chain that comes all at once *)

(** X12. When a parent comes, the watcher does not look at the target.  A
    watcher waits two levels deep; the store reports the name of the parent
    directory, which now exists.  The nested watcher moves onto the parent
    (close, then a registration on the parent) and tells the watcher with a
    ["rename"] that carries the empty name.  Unless the comparer finds the
    base name of the target equal to the empty name, the watcher does not
    test the target: it stays [Missing], one level deep, and calls nothing,
    even when the target is there already. *)
Theorem parent_created_target_not_tested (fs : FileSystem) (path : string)
  (exists_fn : ExistsFn) (d : nat) (name : string) (m : Machine) :
  is_live m d = true ->
  stringComparer fs (basename (dirname path)) name = 0%Z ->
  directoryExists fs (dirname path) = Ok true ->
  stringComparer fs (basename path) "" <> 0%Z ->
  let fresh := List.length (regs m) in
  let m1 := {| regs := close_at d (regs m)
                       ++ [{| reg_path := dirname path; reg_live := true |}];
               trace := trace m ++ [EvClose d; EvWatch fresh (dirname path)] |} in
  notify fs path exists_fn (Missing (Missing (Present d))) d
         (Notify "rename" name) m =
  Some (m1, (Missing (Present fresh), Normal)) /\
  (exists_fn = fileExists ->
   forall s,
     watchFile_notify
       {| in_fs := fs; in_reg := d; in_note := Notify "rename" name |}
       {| fw_path := path; fw_state := s;
          fw_watcher := Missing (Missing (Present d)) |} m =
     Some (m1, ({| fw_path := path; fw_state := s;
                   fw_watcher := Missing (Present fresh) |}, Ok tt))).
Proof.
  intros Hlive Hname Hparent Hbase fresh m1.
  assert (Hnote : forall e,
            notify fs path e (Missing (Missing (Present d))) d
                   (Notify "rename" name) m =
            Some (m1, (Missing (Present fresh), Normal))).
  { intros e.
    pose proof (@notify_rename_moves_down fs (dirname path) directoryExists d
                  name m Hlive Hname Hparent) as Hnested.
    unfold notify in *. rewrite Hlive in *.
    change (deliver fs path e (Missing (Missing (Present d))) d
              (Notify "rename" name) m)
      with (bind (deliver fs (dirname path) directoryExists
                    (Missing (Present d)) d (Notify "rename" name))
              (fun x => let '(parent', completion) := x in
                 match completion with
                 | TailCall eventType filename =>
                     missingCallback fs path e (Missing parent')
                       eventType filename
                 | _ => ret (Missing parent', completion)
                 end) m).
    unfold bind at 1. rewrite Hnested.
    unfold missingCallback.
    apply Z.eqb_neq in Hbase. rewrite Hbase, andb_false_r. reflexivity. }
  split; [apply Hnote |].
  intros -> s. unfold watchFile_notify, bind.
  cbn [in_fs in_reg in_note fw_path fw_state fw_watcher].
  rewrite Hnote. reflexivity.
Qed.

(** ** Gone and back *)

(** X13. A path goes and comes back.  A [Present] watcher gets ["error"]
    when its path is gone and its parent is a directory; later the store
    reports a ["rename"] with the base name of the path, which is there
    again.  The watcher is [Present] again, on a new registration made on
    the path; it called its callback twice, each time with ["rename"] and the
    empty name; its first registration and the one it held on the parent
    are closed, each before the next was made, and the new one is live. *)
Theorem gone_and_back (fs1 fs2 : FileSystem) (path : string)
  (exists_fn : ExistsFn) (r : nat) (name : string) (m : Machine) :
  is_live m r = true ->
  exists_fn fs1 path = Ok false ->
  dirname path <> path ->
  directoryExists fs1 (dirname path) = Ok true ->
  stringComparer fs2 (basename path) name = 0%Z ->
  exists_fn fs2 path = Ok true ->
  let fresh := List.length (regs m) in
  exists m2,
    fsWatch_run path exists_fn
      [{| in_fs := fs1; in_reg := r; in_note := Error |};
       {| in_fs := fs2; in_reg := fresh; in_note := Notify "rename" name |}]
      (Present r) m =
    Some (m2, (Present (S fresh),
               [TailCall "rename" ""; TailCall "rename" ""])) /\
    trace m2 = trace m ++ [EvClose r; EvWatch fresh (dirname path);
                           EvClose fresh; EvWatch (S fresh) path] /\
    is_live m2 r = false /\
    is_live m2 fresh = false /\
    is_live m2 (S fresh) = true /\
    well_placed m2 path (Present (S fresh)).
Proof.
  intros Hlive Hgone Hroot Hparent Hname Hback fresh.
  assert (Hr : r < fresh).
  { unfold fresh. apply nth_error_Some. unfold is_live, live_in in Hlive.
    destruct (nth_error (regs m) r); [discriminate | discriminate]. }
  set (l1 := close_at r (regs m)
              ++ [{| reg_path := dirname path; reg_live := true |}]).
  assert (Hlen : List.length l1 = S fresh).
  { unfold l1. rewrite length_app, close_at_length. cbn [List.length].
    fold fresh. lia. }
  exists {| regs := close_at fresh l1
                    ++ [{| reg_path := path; reg_live := true |}];
            trace := trace m ++ [EvClose r; EvWatch fresh (dirname path);
                                 EvClose fresh; EvWatch (S fresh) path] |}.
  assert (Hmid : is_live
            {| regs := l1;
               trace := trace m ++ [EvClose r; EvWatch fresh (dirname path)] |}
            fresh = true).
  { unfold is_live, l1. cbn [regs].
    rewrite live_in_snoc, close_at_length. fold fresh.
    rewrite Nat.eqb_refl. reflexivity. }
  split; [| split; [reflexivity |]].
  - cbn [fsWatch_run]. unfold bind. cbn [in_fs in_reg in_note].
    rewrite (@notify_error_moves_up fs1 path exists_fn r m Hlive Hgone Hroot
               Hparent).
    fold fresh. fold l1.
    rewrite (@notify_rename_moves_down fs2 path exists_fn fresh name _ Hmid
               Hname Hback).
    unfold ret. cbn [regs trace]. rewrite Hlen, <- app_assoc. reflexivity.
  - unfold is_live. cbn [regs].
    rewrite !live_in_snoc, !close_at_length, Hlen, !live_in_close_at.
    unfold l1. rewrite !live_in_snoc, !close_at_length, !live_in_close_at.
    fold fresh. rewrite !Nat.eqb_refl.
    destruct (Nat.eqb_spec r (S fresh)) as [Heq | _]; [lia |].
    destruct (Nat.eqb_spec r fresh) as [Heq | _]; [lia |].
    destruct (Nat.eqb_spec fresh (S fresh)) as [Heq | _]; [lia |].
    cbn [negb reg_live]. rewrite !andb_false_r.
    split; [reflexivity |]. split; [reflexivity |]. split; [reflexivity |].
    replace (S fresh) with (List.length (close_at fresh l1))
      by (rewrite close_at_length; exact Hlen).
    apply well_placed_fresh.
Qed.

End MoreProperties.

(** * Examples on POSIX paths *)

Module Examples.

#[local] Existing Instance Posix.vpath.

Lemma cut_last_slash_shorter (s : string) :
  forall d, Posix.cut_last_slash s = Some d -> String.length d < String.length s.
Proof.
  induction s as [| c rest IH]; intros d H; cbn [Posix.cut_last_slash] in H;
    [discriminate |].
  destruct (Posix.cut_last_slash rest) as [d' |].
  - injection H as <-. cbn. specialize (IH d' eq_refl). lia.
  - destruct (Ascii.eqb c "/"); [| discriminate].
    injection H as <-. cbn. lia.
Qed.

Lemma posix_dirname_shrinks : dirname_shrinks.
Proof.
  intros p Hne. cbn [dirname Posix.vpath] in *. unfold Posix.dirname in *.
  destruct (Posix.cut_last_slash p) as [d |] eqn:Hcut; [| congruence].
  destruct d as [| c d].
  - destruct p as [| c rest]; cbn [Posix.cut_last_slash] in Hcut;
      [discriminate |].
    destruct (Posix.cut_last_slash rest) as [d' |]; [discriminate |].
    destruct (Ascii.eqb_spec c "/") as [-> | _]; [| discriminate].
    destruct rest as [| c' rest']; [congruence | cbn; lia].
  - apply cut_last_slash_shorter, Hcut.
Qed.

Lemma above_is_root (p : string) (k : nat) :
  dirname p = "/" -> Nat.iter (S k) dirname p = "/".
Proof.
  intros Hp. induction k as [| k IH]; [exact Hp |].
  change (Nat.iter (S (S k)) dirname p)
    with (dirname (Nat.iter (S k) dirname p)).
  rewrite IH. reflexivity.
Qed.

Lemma roots_exist_under_root (fs : FileSystem) (exists_fn : ExistsFn)
  (p : string) :
  dirname p = "/" -> p <> "/" ->
  directoryExists fs "/" = Ok true -> roots_exist fs exists_fn p.
Proof.
  intros Hp Hne Hroot. split.
  - intros Habs. congruence.
  - intros k q _. unfold q. rewrite above_is_root by exact Hp. exact Hroot.
Qed.

Lemma life_of_f_roots (i : Input) :
  In i Posix.life_of_f -> roots_exist (in_fs i) fileExists "/f".
Proof.
  intros Hin. apply roots_exist_under_root; [reflexivity | discriminate |].
  repeat (destruct Hin as [<- | Hin]; [reflexivity |]). destruct Hin.
Qed.

Lemma life_of_d_roots (i : Input) :
  In i Posix.life_of_d -> roots_exist (in_fs i) directoryExists "/d".
Proof.
  intros Hin. apply roots_exist_under_root; [reflexivity | discriminate |].
  repeat (destruct Hin as [<- | Hin]; [reflexivity |]). destruct Hin.
Qed.

(** Witness of C1: the file [/f] is there, the stored snapshot is the
    absent one. *)
Lemma created_dropped_until_believed_witness :
  watchFile_callback (Posix.with_f 5) "/f" Posix.absent_unbelieved Posix.boot =
    Some (Posix.boot, (Posix.absent_believed, Ok tt)) /\
  watchFile_callback (Posix.with_f 5) "/f" Posix.absent_believed Posix.boot =
    Some (after Posix.boot [EvFile "/f" Created], (Posix.seen 5, Ok tt)).
Proof.
  split.
  - apply (created_dropped_until_believed (Posix.with_f 5) "/f"
             Posix.absent_unbelieved Posix.boot);
      [split; [discriminate | reflexivity] | reflexivity].
  - apply (created_dropped_until_believed (Posix.with_f 5) "/f"
             Posix.absent_believed Posix.boot);
      [split; [discriminate | reflexivity] | reflexivity].
Defined.

(** Counterexample of C1 as stated: on a candidate [Created] with the file
    believed to exist the callback is called, and, with the file not believed
    to exist, it is not. *)
Lemma created_dropped_when_believed_fails :
  ~ created_dropped_when_believed (Posix.with_f 5) "/f"
      Posix.absent_believed Posix.boot.
Proof.
  intros H. destruct (H eq_refl) as [Hbelieved _].
  destruct (Hbelieved eq_refl) as (s' & Hrun & _).
  vm_compute in Hrun. discriminate.
Qed.

(** Witness of C3: [/f] was seen at time 5 and is found at 5, then at 7. *)
Lemma changed_needs_later_mtime_witness :
  watchFile_callback (Posix.with_f 5) "/f" (Posix.seen 5) Posix.boot =
    Some (Posix.boot, (Posix.seen 5, Ok tt)) /\
  watchFile_callback (Posix.with_f 7) "/f" (Posix.seen 5) Posix.boot =
    Some (after Posix.boot [EvFile "/f" Changed], (Posix.seen 7, Ok tt)).
Proof.
  split.
  - apply (changed_needs_later_mtime (Posix.with_f 5) "/f" (Posix.seen 5)
             Posix.boot); [left; split; discriminate | cbn; lia].
  - apply (changed_needs_later_mtime (Posix.with_f 7) "/f" (Posix.seen 5)
             Posix.boot); [left; split; discriminate | cbn; lia].
Defined.

(** Witness of C5: a store with nothing in it. *)
Lemma snapshot_never_throws_witness :
  getStats Posix.nothing "/f" = Ok None /\
  watchFile_init Posix.nothing "/f" = Ok Posix.absent_unbelieved.
Proof.
  destruct (snapshot_never_throws Posix.nothing "/f") as (_ & _ & Habsent).
  destruct (Habsent "ENOENT" eq_refl) as (Hstats & Hinit & _).
  split; [exact Hstats | exact Hinit].
Defined.

(** Witness of C10: [/d] lists a file, a name with nothing behind it and a
    directory; [/nowhere] cannot be listed. *)
Lemma getAccessibleFileSystemEntries_spec_witness :
  (exists e, getAccessibleFileSystemEntries Posix.listing "/d" = Ok e /\
             files e = ["e"] /\ directories e = ["sub"] /\
             (exists names stats,
                readdirSync Posix.listing "/d" = Ok names /\ In "e" names /\
                statSync Posix.listing (combine "/d" "e") = Ok stats /\
                isFile stats = true) /\
             (exists names stats,
                readdirSync Posix.listing "/d" = Ok names /\ In "sub" names /\
                statSync Posix.listing (combine "/d" "sub") = Ok stats /\
                isDirectory stats = true)) /\
  (exists e, getAccessibleFileSystemEntries Posix.listing "/nowhere" = Ok e /\
             files e = [] /\ directories e = []).
Proof.
  split.
  - destruct (getAccessibleFileSystemEntries_spec Posix.listing "/d")
      as (e & Hrun & _ & Hlisted & Hfile & Hdir).
    destruct (Hlisted ["e"; "ghost"; "sub"] eq_refl) as [Hfiles Hdirs].
    exists e. split; [exact Hrun |].
    split; [exact Hfiles |]. split; [exact Hdirs |].
    split.
    + apply Hfile. rewrite Hfiles. left. reflexivity.
    + apply Hdir. rewrite Hdirs. left. reflexivity.
  - destruct (getAccessibleFileSystemEntries_spec Posix.listing "/nowhere")
      as (e & Hrun & Hthrow & _).
    destruct (Hthrow "ENOENT" eq_refl) as [Hfiles Hdirs].
    exists e. auto.
Defined.

(** Witness of C8: the directory [/d] with the name [e], with no name, and
    a ["change"]. *)
Lemma watchDirectory_callback_spec_witness :
  watchDirectory_callback "/d" "rename" "e" Posix.boot =
    Some (after Posix.boot [EvDirectory "/d/e"], Ok tt) /\
  watchDirectory_callback "/d" "rename" "" Posix.boot =
    Some (after Posix.boot [EvDirectory "/d"], Ok tt) /\
  watchDirectory_callback "/d" "change" "e" Posix.boot =
    Some (Posix.boot, Ok tt) /\
  watchDirectory_callback "/d" "error" "e" Posix.boot =
    Some (Posix.boot, Ok tt) /\
  watchDirectory_notify (Posix.input Posix.listing 0 (Notify "rename" "e"))
    Posix.d_watched Posix.watching_d =
    Some (after Posix.watching_d [EvDirectory "/d/e"], (Posix.d_watched, Ok tt)).
Proof.
  destruct (watchDirectory_callback_spec "/d" Posix.boot)
    as (Hname & Hnone & Hother & Hchange & _).
  split; [apply (Hname "e"); discriminate |].
  split; [exact Hnone |].
  split; [apply Hchange |].
  split; [apply Hother; discriminate |].
  destruct (watchDirectory_callback_spec "/d" Posix.watching_d)
    as (_ & _ & _ & _ & Hsent).
  exact (Hsent Posix.listing 0 "rename" "e" eq_refl).
Defined.

(** Witness of C7: [/a] is awaited under the root and the store reports
    the name [a], once with [/a] there and once without. *)
Lemma missing_to_present_witness :
  watchDirectory_notify
    (Posix.input Posix.chain1 0 (Notify "rename" "a"))
    {| dw_path := "/a"; dw_watcher := Missing (Present 0) |}
    Posix.watching_root =
  Some ({| regs := [{| reg_path := "/"; reg_live := false |};
                    {| reg_path := "/a"; reg_live := true |}];
           trace := [EvWatch 0 "/"; EvClose 0; EvWatch 1 "/a";
                     EvDirectory "/a"] |},
        ({| dw_path := "/a"; dw_watcher := Present 1 |}, Ok tt)) /\
  notify Posix.chain0 "/a" directoryExists (Missing (Present 0)) 0
         (Notify "rename" "a") Posix.watching_root =
  Some (Posix.watching_root, (Missing (Present 0), Normal)) /\
  (exists m1 parent' type name,
     deliver Posix.chain1 "/" directoryExists (Present 0) 0
       (Notify "rename" "a") Posix.watching_root
     = Some (m1, (parent', TailCall type name)) /\
     (type =? "rename") = true /\
     (Posix.compareCaseSensitive "a" name =? 0)%Z = true).
Proof.
  split; [| split].
  - destruct (missing_to_present Posix.chain1 "/a" directoryExists (Present 0)
                "rename" "a" Posix.watching_root (found := true) eq_refl)
      as (_ & _ & Hdir & _).
    exact (Hdir 0 eq_refl eq_refl eq_refl eq_refl).
  - destruct (missing_to_present Posix.chain0 "/a" directoryExists (Present 0)
                "rename" "a" Posix.watching_root (found := false) eq_refl)
      as (_ & Hnote & _).
    exact (Hnote 0 eq_refl eq_refl).
  - destruct (missing_to_present Posix.chain1 "/a" directoryExists (Present 0)
                "rename" "a" Posix.watching_root (found := true) eq_refl)
      as (_ & _ & _ & Honly).
    destruct (Honly 0 (Notify "rename" "a") _ 1 (TailCall "rename" "") eq_refl)
      as (m1 & parent' & type & name & Hnested & Htype & Hname & _).
    exists m1, parent', type, name. auto.
Defined.

(** Witness of C4: the chain [/a/b/c.txt] made from the top down, then the
    file removed.  Five registrations are made one after the other; the last
    is the only one live at the end, and after the first three store calls
    one is open. *)
Lemma one_live_registration_witness :
  exists m2 w' cs,
    fsWatch_run "/a/b/c.txt" fileExists Posix.chain_made
      (Missing (Missing (Missing (Present 0)))) Posix.watching_root
    = Some (m2, (w', cs)) /\
    disciplined None (trace m2) = Some (Some 4) /\
    List.length (held [] (firstn 3 (trace m2))) <= 1 /\
    owned w' = 4 /\
    is_live m2 4 = true.
Proof.
  destruct (one_live_registration Posix.chain0 "/a/b/c.txt" fileExists
              Posix.chain_made Posix.boot posix_dirname_shrinks)
    as (m1 & made & Hmade & Hrest).
  vm_compute in Hmade. injection Hmade as <- <-.
  destruct Hrest as (m2 & w' & cs & delta & cur & Hrun & Htrace & Hdisc
                     & Hheld & Hown & Hlive).
  exists m2, w', cs. split; [exact Hrun |].
  cbn [Posix.boot trace app] in Htrace. rewrite Htrace.
  vm_compute in Hrun. injection Hrun as <- <- <-.
  cbn [trace] in Htrace. subst delta.
  vm_compute in Hdisc. injection Hdisc as <-.
  split; [reflexivity |].
  split; [eapply Hheld; symmetry; apply firstn_skipn |].
  split; [apply Hown; reflexivity |].
  apply Hlive. right. reflexivity.
Defined.

(** Witness of C6: with the root always there, neither making the watcher
    of [/f], nor the life of [/f], nor the life of [/d] makes anything
    throw. *)
Lemma no_error_while_roots_exist_witness :
  (exists m' w,
     fsWatch Posix.root_only "/f" fileExists Posix.boot = Some (m', Ok w)) /\
  (exists m' fw' results,
     watchFile_run Posix.life_of_f Posix.f_awaited Posix.watching_root
     = Some (m', (fw', results)) /\
     Forall (fun res => res = Ok tt) results) /\
  (exists m' dw' results,
     watchDirectory_run Posix.life_of_d Posix.d_watched Posix.watching_d
     = Some (m', (dw', results)) /\
     Forall (fun res => res = Ok tt) results).
Proof.
  destruct (no_error_while_roots_exist posix_dirname_shrinks)
    as (Hmake & Hfile & Hdir).
  split; [| split].
  - apply Hmake; [exact fileExists_never_throws |].
    apply roots_exist_under_root; [reflexivity | discriminate | reflexivity].
  - apply Hfile. exact life_of_f_roots.
  - apply Hdir. exact life_of_d_roots.
Defined.

(** Counterexample of C6 as stated: [/f] is watched, then the store loses
    everything, its root too, and sends ["error"]: the listener throws. *)
Lemma no_error_after_construction_fails :
  ~ no_error_after_construction (Posix.with_f 5) "/f" Posix.all_gone Posix.boot.
Proof.
  intros H.
  destruct (H Posix.watching_f Posix.f_watched eq_refl)
    as (m2 & fw' & results & Hrun & Hall).
  vm_compute in Hrun. injection Hrun as <- <- <-.
  inversion Hall as [| res rest Habs _]. discriminate.
Qed.




(** ** Witnesses of the further properties *)

(** Witness of X1: the directory [/d] and the file [/d/e]. *)
Lemma getFileSize_zero_unless_file_witness :
  getFileSize Posix.listing "/d" = Ok 0%Z /\
  getFileSize Posix.listing "/d/e" = Ok 1%Z.
Proof.
  split.
  - destruct (getFileSize_zero_unless_file Posix.listing "/d") as (_ & Hnot & _).
    apply Hnot. reflexivity.
  - destruct (getFileSize_zero_unless_file Posix.listing "/d/e")
      as (_ & _ & Hfile).
    destruct (Hfile (Posix.file 3) eq_refl eq_refl) as [_ Hsize]. exact Hsize.
Defined.

(** Witness of X2: [/d] lists a file, a name with nothing behind it, and a
    directory after it, which [getDirectories] never reaches; [/] lists the
    directory [d] only. *)
Lemma getDirectories_stops_at_first_failure_witness :
  (exists ds, getDirectories Posix.listing "/d" = Ok ds /\ ds = [] /\
              exists rest, ["sub"] = ds ++ rest) /\
  (exists ds, getDirectories Posix.listing "/" = Ok ds /\ ds = ["d"]) /\
  (exists ds, getDirectories Posix.listing "/nowhere" = Ok ds /\ ds = []).
Proof.
  split; [| split].
  - destruct (getDirectories_stops_at_first_failure Posix.listing "/d")
      as (ds & Hrun & _ & Hlisted).
    destruct (Hlisted ["e"; "ghost"; "sub"] eq_refl) as [Hds Hrel].
    exists ds. split; [exact Hrun |]. split; [exact Hds |].
    destruct (Hrel {| files := ["e"]; directories := ["sub"] |} eq_refl)
      as [Hprefix _]; [| exact Hprefix].
    intros file stats Hin Hstat Hfile.
    destruct Hin as [<- | [<- | [<- | []]]]; vm_compute in Hstat;
      try discriminate; injection Hstat as <-; try reflexivity; discriminate.
  - destruct (getDirectories_stops_at_first_failure Posix.listing "/")
      as (ds & Hrun & _ & Hlisted).
    destruct (Hlisted ["d"] eq_refl) as [Hds Hrel].
    exists ds. split; [exact Hrun |].
    destruct (Hrel {| files := []; directories := ["d"] |} eq_refl)
      as [_ Hall].
    + intros file stats Hin Hstat Hfile.
      destruct Hin as [<- | []]. vm_compute in Hstat.
      injection Hstat as <-. discriminate.
    + symmetry. apply Hall. reflexivity.
  - destruct (getDirectories_stops_at_first_failure Posix.listing "/nowhere")
      as (ds & Hrun & Hthrow & _).
    exists ds. split; [exact Hrun | exact (Hthrow "ENOENT" eq_refl)].
Defined.

(** Witness of X3: the directory [/d], the file [/d/e], and [/x]. *)
Lemma resolver_statSync_kinds_witness :
  Resolver.statSync Posix.io_d "/d"
    = Ok {| Resolver.mode := 0x41ff; Resolver.size := 0 |} /\
  Resolver.statSync Posix.io_d "/d/e"
    = Ok {| Resolver.mode := 0x81b6; Resolver.size := 3 |} /\
  Resolver.statSync Posix.io_d "/x" = Throws "ENOENT: path does not exist" /\
  ((exists msg, Resolver.statSync Posix.io_d "/x" = Throws msg)
   <-> false = false /\ false = false).
Proof.
  split; [| split; [| split]].
  - destruct (resolver_statSync_kinds Posix.io_d "/d" (d := true) eq_refl)
      as (Hdir & _).
    destruct (Hdir eq_refl) as (st & Hrun & _). reflexivity.
  - destruct (resolver_statSync_kinds Posix.io_d "/d/e" (d := false) eq_refl)
      as (_ & Hfile & _).
    destruct (Hfile eq_refl 3%Z eq_refl eq_refl) as (st & Hrun & _). reflexivity.
  - apply (resolver_statSync_kinds Posix.io_d "/x" (d := false) eq_refl);
      reflexivity.
  - destruct (resolver_statSync_kinds Posix.io_d "/x" (d := false) eq_refl)
      as (_ & _ & _ & Hiff).
    apply (Hiff false eq_refl). exists 3%Z. reflexivity.
Defined.

(** Witness of X4: with only the root there, the watcher of [/a/b/c.txt]
    stands three levels deep, on the root; with nothing there, not even the
    root, [fsWatch] throws. *)
Lemma fsWatch_watches_nearest_witness :
  (fsWatch Posix.root_only "/a/b/c.txt" fileExists Posix.boot
   = Some (Posix.watching_root, Ok (Missing (Missing (Missing (Present 0)))))
   /\ directoryExists Posix.root_only (ancestor "/a/b/c.txt" 3) = Ok true
   /\ fileExists Posix.root_only (ancestor "/a/b/c.txt" 0) = Ok false) /\
  (exists k,
     dirname (ancestor "/f" k) = ancestor "/f" k /\
     forall j, j <= k ->
       level_exists fileExists j Posix.nothing (ancestor "/f" j) = Ok false).
Proof.
  split.
  - destruct (fsWatch_watches_nearest Posix.root_only "/a/b/c.txt" Posix.boot
                posix_dirname_shrinks fileExists_never_throws)
      as (m' & made & Hrun & Hmade).
    vm_compute in Hrun. injection Hrun as <- <-.
    destruct Hmade as (_ & _ & Hhere & Hbelow).
    split; [reflexivity |]. split; [exact Hhere |].
    apply (Hbelow 0). cbn. lia.
  - destruct (fsWatch_watches_nearest Posix.nothing "/f" Posix.boot
                posix_dirname_shrinks fileExists_never_throws)
      as (m' & made & Hrun & Hmade).
    vm_compute in Hrun. injection Hrun as <- <-.
    destruct Hmade as (_ & _ & Hroot). exact Hroot.
Defined.

(** Witness of X5: the chain [/a/b/c.txt] made from the top down, then the
    file removed; the watcher ends one level deep, on [/a/b]. *)
Lemma registration_well_placed_witness :
  exists m2 w' cs,
    fsWatch_run "/a/b/c.txt" fileExists Posix.chain_made
      (Missing (Missing (Missing (Present 0)))) Posix.watching_root
    = Some (m2, (w', cs)) /\
    well_placed m2 "/a/b/c.txt" w'.
Proof.
  destruct (registration_well_placed Posix.chain0 "/a/b/c.txt" fileExists
              Posix.chain_made Posix.boot posix_dirname_shrinks)
    as (m1 & made & Hmade & Hrest).
  vm_compute in Hmade. injection Hmade as <- <-.
  destruct (Hrest _ eq_refl) as (_ & m2 & w' & cs & Hrun & Hplaced).
  exists m2, w', cs. split; [exact Hrun | exact Hplaced].
Defined.

(** Witness of X6: [/f] is watched and is there; the store sends
    ["error"]. *)
Lemma error_ignored_while_path_exists_witness :
  watchFile_notify (Posix.input (Posix.with_f 5) 0 Error)
    Posix.f_watched Posix.watching_f
  = Some (Posix.watching_f, (Posix.f_watched, Ok tt)).
Proof.
  destruct (@error_ignored_while_path_exists _ (Posix.with_f 5) "/f" fileExists
              (Present 0) 0 Posix.watching_f eq_refl) as [_ Hfile].
  exact (Hfile eq_refl (Posix.seen 5)).
Defined.

(** Witness of X7: [/f] is awaited under the root; the store sends a
    ["change"] that names it. *)
Lemma missing_ignores_other_types_witness :
  watchFile_notify (Posix.input (Posix.with_f 5) 0 (Notify "change" "f"))
    Posix.f_awaited Posix.watching_root
  = Some (Posix.watching_root, (Posix.f_awaited, Ok tt)).
Proof.
  destruct (@missing_ignores_other_types _ (Posix.with_f 5) "/f" fileExists
              (Present 0) 0 "change" "f" Posix.watching_root) as [_ Hfile].
  - discriminate.
  - exact (Hfile eq_refl Posix.absent_unbelieved).
Defined.

(** Witness of X8: [/f], seen at 5, is found at 7 by four notifications of
    both types and several names. *)
Lemma same_store_reports_at_most_once_witness :
  exists s' delta,
    watchFile_run
      [Posix.input (Posix.with_f 7) 0 (Notify "change" "f");
       Posix.input (Posix.with_f 7) 0 (Notify "rename" "f");
       Posix.input (Posix.with_f 7) 0 (Notify "change" "");
       Posix.input (Posix.with_f 7) 0 (Notify "rename" "g")]
      Posix.f_watched Posix.watching_f
    = Some (after Posix.watching_f delta,
            ({| fw_path := "/f"; fw_state := s'; fw_watcher := Present 0 |},
             [Ok tt; Ok tt; Ok tt; Ok tt])) /\
    List.length delta <= 1 /\
    List.length (file_events delta) = List.length delta.
Proof.
  exact (@same_store_reports_at_most_once _ (Posix.with_f 7) "/f" (Posix.seen 5)
           0 Posix.mixed_notes Posix.watching_f eq_refl).
Defined.

Lemma f_is_not_root : dirname "/f" <> "/f".
Proof. intros H. vm_compute in H. discriminate. Qed.

Lemma d_is_not_root : dirname "/d" <> "/d".
Proof. intros H. vm_compute in H. discriminate. Qed.

(** Witness of X9: [/f], seen at 5, is removed; and the directory [/d]. *)
Lemma path_removed_witness :
  watchFile_notify (Posix.input Posix.root_only 0 Error)
    Posix.f_watched Posix.watching_f
  = Some ({| regs := [{| reg_path := "/f"; reg_live := false |};
                      {| reg_path := "/"; reg_live := true |}];
             trace := [EvWatch 0 "/f"; EvClose 0; EvWatch 1 "/";
                       EvFile "/f" Deleted] |},
          ({| fw_path := "/f"; fw_state := Posix.absent_unbelieved;
              fw_watcher := Missing (Present 1) |}, Ok tt)) /\
  watchDirectory_notify (Posix.input Posix.root_only 0 Error)
    Posix.d_watched Posix.watching_d
  = Some ({| regs := [{| reg_path := "/d"; reg_live := false |};
                      {| reg_path := "/"; reg_live := true |}];
             trace := [EvWatch 0 "/d"; EvClose 0; EvWatch 1 "/";
                       EvDirectory "/d"] |},
          ({| dw_path := "/d"; dw_watcher := Missing (Present 1) |}, Ok tt)).
Proof.
  split.
  - destruct (@path_removed _ Posix.root_only "/f" 0 Posix.watching_f eq_refl
                f_is_not_root eq_refl) as [Hfile _].
    exact (Hfile "ENOENT" (Posix.seen 5) eq_refl).
  - destruct (@path_removed _ Posix.root_only "/d" 0 Posix.watching_d eq_refl
                d_is_not_root eq_refl) as [_ Hdir].
    exact (Hdir eq_refl).
Defined.

(** Witness of X10: [/f] is awaited under the root and is made at time 5. *)
Lemma file_created_needs_two_notifications_witness :
  watchFile_run
    [Posix.input (Posix.with_f 5) 0 (Notify "rename" "f");
     Posix.input (Posix.with_f 5) 1 (Notify "change" "f")]
    Posix.f_awaited Posix.watching_root
  = Some ({| regs := [{| reg_path := "/"; reg_live := false |};
                      {| reg_path := "/f"; reg_live := true |}];
             trace := [EvWatch 0 "/"; EvClose 0; EvWatch 1 "/f";
                       EvFile "/f" Created] |},
          ({| fw_path := "/f"; fw_state := Posix.seen 5;
              fw_watcher := Present 1 |}, [Ok tt; Ok tt])).
Proof.
  destruct (@file_created_needs_two_notifications _ (Posix.with_f 5) "/f"
              Posix.absent_unbelieved 0 "f" (Posix.file 5)
              Posix.watching_root eq_refl eq_refl eq_refl eq_refl eq_refl)
    as [Hfirst Hsecond]; [discriminate | reflexivity |].
  cbn [watchFile_run]. unfold bind.
  change (Posix.input (Posix.with_f 5) 0 (Notify "rename" "f"))
    with {| in_fs := Posix.with_f 5; in_reg := 0;
            in_note := Notify "rename" "f" |}.
  change Posix.f_awaited
    with {| fw_path := "/f"; fw_state := Posix.absent_unbelieved;
            fw_watcher := Missing (Present 0) |}.
  rewrite Hfirst.
  change (Posix.input (Posix.with_f 5) 1 (Notify "change" "f"))
    with {| in_fs := Posix.with_f 5;
            in_reg := List.length (regs Posix.watching_root);
            in_note := Notify "change" "f" |}.
  rewrite (Hsecond "change" "f"). reflexivity.
Defined.

(** Witness of X11: [watchFile] is given [f] in a store whose current
    directory is the root, and [/f] lives its life. *)
Lemma watchFile_reports_resolved_path_witness :
  exists m2 fw' results delta,
    watchFile_run Posix.life_of_f Posix.f_awaited Posix.watching_root
    = Some (m2, (fw', results)) /\
    fw_path fw' = "/f" /\
    trace m2 = trace Posix.watching_root ++ delta /\
    reports_only "/f" delta.
Proof.
  destruct (@watchFile_reports_resolved_path _ Posix.root_only "f"
              Posix.life_of_f Posix.boot Posix.watching_root
              Posix.f_awaited posix_dirname_shrinks eq_refl)
    as (_ & _ & Hrun).
  exact Hrun.
Defined.

(** Witness of X12: [/a/f] is awaited two levels deep, under the root;
    [/a] and [/a/f] are made together and the store reports [a]. *)
Lemma parent_created_target_not_tested_witness :
  watchFile_notify (Posix.input Posix.chain_at_once 0 (Notify "rename" "a"))
    Posix.waiting_two_deep Posix.watching_root
  = Some ({| regs := [{| reg_path := "/"; reg_live := false |};
                      {| reg_path := "/a"; reg_live := true |}];
             trace := [EvWatch 0 "/"; EvClose 0; EvWatch 1 "/a"] |},
          ({| fw_path := "/a/f"; fw_state := Posix.absent_unbelieved;
              fw_watcher := Missing (Present 1) |}, Ok tt)) /\
  fileExists Posix.chain_at_once "/a/f" = Ok true.
Proof.
  split; [| reflexivity].
  assert (Hname : stringComparer Posix.chain_at_once
                    (basename (dirname "/a/f")) "a" = 0%Z)
    by (vm_compute; reflexivity).
  assert (Hbase : stringComparer Posix.chain_at_once (basename "/a/f") ""
                  <> 0%Z)
    by (vm_compute; discriminate).
  destruct (@parent_created_target_not_tested _ Posix.chain_at_once "/a/f"
              fileExists 0 "a" Posix.watching_root eq_refl Hname eq_refl Hbase)
    as [_ Hfile].
  exact (Hfile eq_refl Posix.absent_unbelieved).
Defined.

(** Witness of X13: [/f] is watched, is removed, and is made again. *)
Lemma gone_and_back_witness :
  exists m2,
    fsWatch_run "/f" fileExists
      [Posix.input Posix.root_only 0 Error;
       Posix.input (Posix.with_f 9) 1 (Notify "rename" "f")]
      (Present 0) Posix.watching_f
    = Some (m2, (Present 2, [TailCall "rename" ""; TailCall "rename" ""])) /\
    trace m2 = [EvWatch 0 "/f"; EvClose 0; EvWatch 1 "/"; EvClose 1;
                EvWatch 2 "/f"] /\
    is_live m2 0 = false /\ is_live m2 1 = false /\ is_live m2 2 = true /\
    well_placed m2 "/f" (Present 2).
Proof.
  assert (Hname : stringComparer (Posix.with_f 9) (basename "/f") "f" = 0%Z)
    by (vm_compute; reflexivity).
  exact (@gone_and_back _ Posix.root_only (Posix.with_f 9) "/f" fileExists 0
           "f" Posix.watching_f eq_refl eq_refl f_is_not_root eq_refl Hname
           eq_refl).
Defined.

End Examples.
